(** * SmokiFit Guide: the pagination and advisory engine of [main.py]

    A shallow embedding of class [Pagination] ([display_page],
    [nutritional_advice], [save_unsave], [input_text], [paginate]) together
    with the fragment of Python it runs on: JSON scalars, [dict] records,
    integer and IEEE-754 double arithmetic, exceptions.

    Conventions.
    - A Python [int] is a [Z]; a Python [float] is a kernel [float] (binary64).
    - A record (a JSON object with scalar fields) is a [gmap string pyval].
    - A computation that may raise is a [result]; an uncaught exception ends
      the program, since [paginate] and [display_page] contain no handler.
    - [print] calls and calls to the [UserData] object are recorded as
      [event]s, carrying the data that is printed rather than its rendering. *)

From Stdlib Require Import ZArith Floats.
From stdpp Require Import gmap strings list pretty.

Open Scope Z_scope.

(** ** Python values *)

(** Python numbers: arbitrary precision [int] and binary64 [float]. *)
Inductive pynum :=
| NInt (z : Z)
| NFloat (f : float).

(** The scalars [json.loads] produces: [null], [true]/[false], numbers and
    strings. *)
Inductive pyval :=
| PNone
| PBool (b : bool)
| PNum (n : pynum)
| PStr (s : string).

(** [DataType = List[Dict[str, Union[str, int]]]]: a record is a [dict]. *)
Abbreviation record := (gmap string pyval).

Inductive pyexn :=
| KeyError (k : string)
| TypeError
| ZeroDivisionError
| OverflowError.

Inductive result (A : Type) :=
| Ok (a : A)
| Raise (e : pyexn).
Arguments Ok {A} a.
Arguments Raise {A} e.

#[global] Instance result_ret : MRet result := fun A a => Ok a.
#[global] Instance result_bind : MBind result := fun A B f m =>
  match m with
  | Ok a => f a
  | Raise e => Raise e
  end.

(** ** Arithmetic *)

Definition pint (z : Z) : pyval := PNum (NInt z).

(** Numeric coercion of an operand: [bool] is a subclass of [int]; [None] and
    [str] operands of [/], [*] (with a float) and of an ordering comparison with
    an [int] raise [TypeError]. *)
Definition as_num (v : pyval) : result pynum :=
  match v with
  | PBool b => Ok (NInt (if b then 1 else 0))
  | PNum n => Ok n
  | PNone | PStr _ => Raise TypeError
  end.

Definition SF_of_int (z : Z) : spec_float :=
  match z with
  | Z0 => S754_zero false
  | Zpos p => S754_finite false p 0
  | Zneg p => S754_finite true p 0
  end.

Definition SF_to_float (x : spec_float) : result float :=
  match x with
  | S754_infinity _ => Raise OverflowError
  | _ => Ok (SF2Prim x)
  end.

(** [float(z)]: round to nearest even; [OverflowError] beyond the double range. *)
Definition float_of_int (z : Z) : result float :=
  SF_to_float (binary_normalize 53 1024 z 0 false).

Definition to_float (n : pynum) : result float :=
  match n with
  | NInt z => float_of_int z
  | NFloat f => Ok f
  end.

Definition float_is_zero (f : float) : bool := PrimFloat.eqb f 0%float.

(** [a / b], true division: the correctly rounded quotient, always a float. *)
Definition num_truediv (a b : pynum) : result float :=
  match a, b with
  | NInt x, NInt y =>
      if y =? 0 then Raise ZeroDivisionError
      else SF_to_float (SFdiv 53 1024 (SF_of_int x) (SF_of_int y))
  | _, _ =>
      x ← to_float a;
      y ← to_float b;
      if float_is_zero y then Raise ZeroDivisionError else Ok (x / y)%float
  end.

(** [a * b] *)
Definition num_mul (a b : pynum) : result pynum :=
  match a, b with
  | NInt x, NInt y => Ok (NInt (x * y))
  | _, _ => x ← to_float a; y ← to_float b; Ok (NFloat (x * y)%float)
  end.

(** [a + b] *)
Definition num_add (a b : pynum) : result pynum :=
  match a, b with
  | NInt x, NInt y => Ok (NInt (x + y))
  | _, _ => x ← to_float a; y ← to_float b; Ok (NFloat (x + y)%float)
  end.

(** The exact value of a finite double [(-1)^s * m * 2^e] against an integer:
    Python compares a float with an int by value, without rounding the int.
    [None] is the unordered case (nan). *)
Definition SF_compare_int (x : spec_float) (k : Z) : option comparison :=
  match x with
  | S754_nan => None
  | S754_infinity s => Some (if s then Lt else Gt)
  | S754_zero _ => Some (0 ?= k)
  | S754_finite s m e =>
      let v := if s then Z.neg m else Z.pos m in
      Some (match e with
            | Z.neg p => v ?= k * 2 ^ Z.pos p
            | _ => v * 2 ^ e ?= k
            end)
  end.

Definition num_compare_int (n : pynum) (k : Z) : option comparison :=
  match n with
  | NInt z => Some (z ?= k)
  | NFloat f => SF_compare_int (Prim2SF f) k
  end.

(** [n < k], [n <= k], [n > k], [n >= k] for an int literal [k]. *)
Definition num_lt (n : pynum) (k : Z) : bool :=
  match num_compare_int n k with Some Lt => true | _ => false end.
Definition num_le (n : pynum) (k : Z) : bool :=
  match num_compare_int n k with Some Lt | Some Eq => true | _ => false end.
Definition num_gt (n : pynum) (k : Z) : bool :=
  match num_compare_int n k with Some Gt => true | _ => false end.
Definition num_ge (n : pynum) (k : Z) : bool :=
  match num_compare_int n k with Some Gt | Some Eq => true | _ => false end.

(** ** Dictionaries, slices, strings *)

(** [d.get(k, default)] *)
Definition dict_get (d : record) (k : string) (dflt : pyval) : pyval :=
  default dflt (d !! k).

(** [d[k]] *)
Definition dict_item (d : record) (k : string) : result pyval :=
  match d !! k with
  | Some v => Ok v
  | None => Raise (KeyError k)
  end.

(** Bound of a slice: a negative index counts from the end; both are clamped. *)
Definition slice_bound (len i : Z) : Z :=
  if i <? 0 then Z.max 0 (i + len) else Z.min i len.

(** [l[start:stop]] *)
Definition py_slice {A} (l : list A) (start stop : Z) : list A :=
  let len := Z.of_nat (length l) in
  let lo := slice_bound len start in
  let hi := slice_bound len stop in
  take (Z.to_nat (hi - lo)) (drop (Z.to_nat lo) l).

Definition lower_ascii (c : Ascii.ascii) : Ascii.ascii :=
  let n := Ascii.N_of_ascii c in
  if ((65 <=? n) && (n <=? 90))%N then Ascii.ascii_of_N (n + 32) else c.

(** [s.lower()] on the ASCII letters (no other character lowers to one). *)
Fixpoint lower (s : string) : string :=
  match s with
  | EmptyString => EmptyString
  | String c s' => String (lower_ascii c) (lower s')
  end.

(** [a // b] and [a % b] on ints: floor division, remainder with the sign of
    the divisor. *)
Definition int_floordiv (a b : Z) : result Z :=
  if b =? 0 then Raise ZeroDivisionError else Ok (a / b).
Definition int_mod (a b : Z) : result Z :=
  if b =? 0 then Raise ZeroDivisionError else Ok (a mod b).


(** [a - b] *)
Definition num_sub (a b : pynum) : result pynum :=
  match a, b with
  | NInt x, NInt y => Ok (NInt (x - y))
  | _, _ => x ← to_float a; y ← to_float b; Ok (NFloat (x - y)%float)
  end.

(** [v * factor] for a float [factor]: the left operand is coerced to a
    number ([str * float] and [None * float] raise [TypeError]). *)
Definition py_mul (v : pyval) (factor : float) : result pynum :=
  n ← as_num v; num_mul n (NFloat factor).

(** [s + v] for a string [s]: only a [str] can be concatenated to a [str]. *)
Definition str_concat (s : string) (v : pyval) : result string :=
  match v with
  | PStr t => Ok (s +:+ t)
  | _ => Raise TypeError
  end.

Definition nl : string := String (Ascii.ascii_of_nat 10) EmptyString.

(** A [dict] is falsy exactly when it is empty; [display_data] is either the
    constant [False] ([None] here) or a record. *)
Definition truthy (d : option record) : bool :=
  match d with
  | Some r => bool_decide (r ≠ ∅)
  | None => false
  end.

(** ** The [Pagination] object *)

Record Pagination := mkPagination {
  page_size : Z;
  data : list record;
  total_pages : Z;
  current_page : Z;
  mode : string;
  serving_size_check : bool;
  mindful_food : string;
  page_calories : pynum;
  page_fat : pynum;
  page_protein : pynum;
  page_sugar : pynum;
  display_data : option record;
  eaten_pages : list Z
}.

Definition set_current_page (self : Pagination) (p : Z) : Pagination :=
  mkPagination (page_size self) (data self) (total_pages self) p (mode self)
    (serving_size_check self) (mindful_food self) (page_calories self)
    (page_fat self) (page_protein self) (page_sugar self) (display_data self)
    (eaten_pages self).

Definition set_display_data (self : Pagination) (d : option record) : Pagination :=
  mkPagination (page_size self) (data self) (total_pages self)
    (current_page self) (mode self) (serving_size_check self)
    (mindful_food self) (page_calories self) (page_fat self)
    (page_protein self) (page_sugar self) d (eaten_pages self).

Definition set_eaten_pages (self : Pagination) (l : list Z) : Pagination :=
  mkPagination (page_size self) (data self) (total_pages self)
    (current_page self) (mode self) (serving_size_check self)
    (mindful_food self) (page_calories self) (page_fat self)
    (page_protein self) (page_sugar self) (display_data self) l.

(** The six attributes [display_page] recomputes for the page shown. *)
Definition set_page_values (self : Pagination) (check : bool) (mindful : string)
    (calories fat protein sugar : pynum) : Pagination :=
  mkPagination (page_size self) (data self) (total_pages self)
    (current_page self) (mode self) check mindful calories fat protein sugar
    (display_data self) (eaten_pages self).

(** ** What the engine prints and what it asks of [UserData] *)

Inductive nav_options :=
| NavNone       (* only the save option and "m : main menu" *)
| NavNext       (* "n : next" *)
| NavPrevious   (* "p : previous" *)
| NavBoth.      (* "n : next,     p : previous" *)

Inductive dialogue :=
| KeepItUp
| OverGoal (excess : pynum).

Inductive message :=
| NoResults
| NoNextPage
| NoPreviousPage
| AlreadySaved
| ExerciseSaved
| NotSaved
| ExerciseUnsaved
| CaloriesAdded (consumed : pynum) (d : dialogue)
| AlreadyAdded
| InvalidInput.

Inductive event :=
| PrintPage (current total : Z)
| PrintExercise (fields : list pyval)
| PrintNutrition (fields : list pyval)
| PrintAdvice (advice : string)
| PrintOptions (nav : nav_options) (save_option : string)
| PrintEatOption
| Print (m : message)
| CallIsSaved (name : pyval)
| CallAddSave (name : pyval) (details : record)
| CallDeleteSave (name : pyval)
| CallTrackConsumedCalories (consumed : pynum).

(** The calls that write to the store. *)
Definition is_write (e : event) : bool :=
  match e with
  | CallAddSave _ _ | CallDeleteSave _ | CallTrackConsumedCalories _ => true
  | _ => false
  end.

Definition is_ledger_call (e : event) : bool :=
  match e with
  | CallTrackConsumedCalories _ => true
  | _ => false
  end.

Definition exercise_fields : list string :=
  ["name"; "type"; "muscle"; "equipment"; "difficulty"; "instructions"].

Definition nutrition_fields : list string :=
  ["name"; "calories"; "serving_size_g"; "fat_total_g"; "fat_saturated_g";
   "protein_g"; "sodium_mg"; "potassium_mg"; "cholesterol_mg";
   "carbohydrates_total_g"; "fiber_g"; "sugar_g"].

(** [self.display_data[k]]: subscripting [False] is a [TypeError]. *)
Definition display_item (self : Pagination) (k : string) : result pyval :=
  match display_data self with
  | Some d => dict_item d k
  | None => Raise TypeError
  end.

Fixpoint display_items (self : Pagination) (ks : list string) : result (list pyval) :=
  match ks with
  | [] => Ok []
  | k :: ks' => v ← display_item self k; vs ← display_items self ks'; Ok (v :: vs)
  end.

Definition display_exercise (self : Pagination) : result (list event) :=
  vs ← display_items self exercise_fields; Ok [PrintExercise vs].

Definition display_nutrition (self : Pagination) : result (list event) :=
  vs ← display_items self nutrition_fields; Ok [PrintNutrition vs].

(** ** [display_page] and [nutritional_advice] *)

Section Rendering.

(** [repr] of a float, as an f-string interpolates it; its digits are not
    modelled. *)
Variable float_repr : float → string.

(** [f"{v}"] *)
Definition py_str (v : pyval) : string :=
  match v with
  | PNone => "None"
  | PBool true => "True"
  | PBool false => "False"
  | PNum (NInt z) => pretty z
  | PNum (NFloat f) => float_repr f
  | PStr s => s
  end.

(** Lines 461-482: one nutrition record [d] (the current [display_data]) is
    added to the page values. The operand of [100 / serving_size] is coerced
    once; the comparisons of [serving_size] that follow cannot raise after it. *)
Definition accumulate_nutrition (self : Pagination) (d : record) : result Pagination :=
  serving_size ← as_num (dict_get d "serving_size_g" (pint 100));
  factor ← num_truediv (NInt 100) serving_size;
  calories ← py_mul (dict_get d "calories" (pint 0)) factor;
  '(check, mindful) ←
    (if num_ge serving_size 100 && serving_size_check self then
       Ok (true, mindful_food self)
     else if negb (serving_size_check self) then
       if num_lt serving_size 100 && num_gt calories 300 then
         Ok (serving_size_check self,
             mindful_food self +:+ " and " +:+ py_str (dict_get d "name" PNone))
       else Ok (serving_size_check self, mindful_food self)
     else
       if num_lt serving_size 100 && num_gt calories 300 then
         mindful ← str_concat (mindful_food self) (dict_get d "name" PNone);
         Ok (false, mindful)
       else Ok (serving_size_check self, mindful_food self));
  page_calories' ← num_add (page_calories self) calories;
  fat ← py_mul (dict_get d "fat_total_g" (pint 0)) factor;
  page_fat' ← num_add (page_fat self) fat;
  protein ← py_mul (dict_get d "protein_g" (pint 0)) factor;
  page_protein' ← num_add (page_protein self) protein;
  sugar ← py_mul (dict_get d "sugar_g" (pint 0)) factor;
  page_sugar' ← num_add (page_sugar self) sugar;
  Ok (set_page_values self check mindful page_calories' page_fat' page_protein'
        page_sugar').

(** The body of [for data in page_data] (lines 456-483). *)
Definition display_record (self : Pagination) (d : record) : result (Pagination * list event) :=
  let self := set_display_data self (Some d) in
  if String.eqb (mode self) "exercise" then
    evs ← display_exercise self; Ok (self, evs)
  else if String.eqb (mode self) "nutrition" then
    self ← accumulate_nutrition self d;
    evs ← display_nutrition self;
    Ok (self, evs)
  else Ok (self, []).

Fixpoint display_records (self : Pagination) (page_data : list record) : result (Pagination * list event) :=
  match page_data with
  | [] => Ok (self, [])
  | d :: rest =>
      '(self, evs) ← display_record self d;
      '(self, evs') ← display_records self rest;
      Ok (self, evs ++ evs')
  end.

(** The slice shown as page [p]. *)
Definition page_slice (self : Pagination) (p : Z) : list record :=
  let start_index := (p - 1) * page_size self in
  let end_index := start_index + page_size self in
  py_slice (data self) start_index end_index.

Definition display_page (self : Pagination) : result (Pagination * list event) :=
  let page_data := page_slice self (current_page self) in
  let self := set_page_values self true "" (NInt 0) (NInt 0) (NInt 0) (NInt 0) in
  match page_data with
  | [] =>
      Ok (set_display_data self None,
          [PrintPage (current_page self) (total_pages self); Print NoResults])
  | _ =>
      '(self, evs) ← display_records self page_data;
      Ok (self, PrintPage (current_page self) (total_pages self) :: evs)
  end.

Definition nutritional_advice (self : Pagination) : string :=
  let advice := "" in
  if num_lt (page_calories self) 100 then
    advice +:+ "Low-calorie: Suitable for a healthy diet. Consider incorporating a variety of nutrient-dense foods."
  else if num_ge (page_calories self) 100 && num_le (page_calories self) 300 then
    if num_ge (page_fat self) 10 && num_le (page_fat self) 20
       && (num_ge (page_protein self) 5 && num_le (page_protein self) 20)
       && num_le (page_sugar self) 10 then
      advice +:+ "Moderate-calorie: Balanced nutritional content. Enjoy in moderation as part of a well-rounded diet."
    else
      let advice := "Moderate-calorie: Consider optimizing your nutritional balance." in
      let advice :=
        if num_lt (page_fat self) 10 then
          advice +:+ " Increase healthy fats for sustained energy."
        else if num_gt (page_fat self) 20 then
          advice +:+ " Limit saturated fats for heart health."
        else advice in
      let advice :=
        if num_lt (page_protein self) 5 then
          advice +:+ " Include more protein sources for muscle maintenance."
        else advice in
      let advice :=
        if num_gt (page_sugar self) 10 then
          advice +:+ " Be mindful of added sugars for overall well-being."
        else advice in
      let advice :=
        if negb (serving_size_check self) then
          advice +:+ nl +:+ "Be mindful of " +:+ mindful_food self +:+
          ". Small amount occasionally can be okay, but try to focus on a balanced diet overall."
        else advice in
      advice
  else
    let advice :=
      advice +:+ "High-calorie: Consider consuming in moderation. Check nutritional values for a balanced and varied diet." in
    let advice :=
      if negb (serving_size_check self) then
        advice +:+ nl +:+ "Be mindful of " +:+ mindful_food self +:+
        ". Small amount occasionally can be okay, but try to focus on a balanced diet overall."
      else advice in
    advice.

End Rendering.

(** ** The [UserData] object, as [Pagination] uses it *)

(** [UserData] keeps its tables in SQLite. The engine only uses the five
    members below; they are kept as an interface over a store state [U]. The
    four methods run SQL statements and can raise ([is_saved] on a name SQLite
    cannot bind, [track_consumed_calories] when [get_consumed_calories] finds
    no number for today); [Pagination] catches nothing, so the exception ends
    the session. [is_saved] is a query, the other methods return the updated
    store; [goal] is an attribute. *)
Class UserDataOps (U : Type) := {
  is_saved : U → pyval → result bool;
  add_save : U → pyval → record → result U;
  delete_save : U → pyval → result U;
  track_consumed_calories : U → pynum → result (U * (bool * pynum));
  goal : U → pynum
}.

(** ** [save_unsave], [input_text] and the command loop of [paginate] *)

(** Line 559: [len(self.data) // self.page_size + (len(self.data) %
    self.page_size > 0)], where [True] counts as 1. *)
Definition count_pages (len size : Z) : result Z :=
  q ← int_floordiv len size;
  r ← int_mod len size;
  Ok (q + (if 0 <? r then 1 else 0)).

Inductive control :=
| Continue
| Break.

Section Session.

Context (float_repr : float → string) {U : Type} `{!UserDataOps U}.

Definition save_unsave (self : Pagination) (ud : U) : result (string * list event) :=
  if String.eqb (mode self) "nutrition" || negb (truthy (display_data self)) then
    Ok ("", [])
  else
    name ← display_item self "name";
    saved ← is_saved ud name;
    Ok (if saved : bool then "u : unsave,   " else "s : save,     ",
        [CallIsSaved name]).

(** The condition of lines 534 and 547. *)
Definition eat_offered (self : Pagination) : bool :=
  String.eqb (mode self) "nutrition" && truthy (display_data self)
  && negb (bool_decide (current_page self ∈ eaten_pages self)).

Definition input_text (self : Pagination) (ud : U) : result (list event) :=
  let advice :=
    if eat_offered self then [PrintAdvice (nutritional_advice self)] else [] in
  let nav :=
    if total_pages self <=? 1 then NavNone
    else if current_page self =? 1 then NavNext
    else if current_page self =? total_pages self then NavPrevious
    else NavBoth in
  '(option, calls) ← save_unsave self ud;
  Ok (advice ++ calls ++ [PrintOptions nav option]
      ++ (if eat_offered self then [PrintEatOption] else [])).

(** One dispatch of the [if]/[elif] chain of lines 568-607 on an input line. *)
Definition command (self : Pagination) (ud : U) (user_input : string) : result (Pagination * U * list event * control) :=
  let key := lower user_input in
  if String.eqb key "n" then
    if current_page self <? total_pages self then
      '(self, evs) ← display_page float_repr (set_current_page self (current_page self + 1));
      Ok (self, ud, evs, Continue)
    else Ok (self, ud, [Print NoNextPage], Continue)
  else if String.eqb key "p" then
    if 1 <? current_page self then
      '(self, evs) ← display_page float_repr (set_current_page self (current_page self - 1));
      Ok (self, ud, evs, Continue)
    else Ok (self, ud, [Print NoPreviousPage], Continue)
  else if String.eqb key "s" && String.eqb (mode self) "exercise"
          && truthy (display_data self) then
    match display_data self with
    | Some d =>
        name ← dict_item d "name";
        saved ← is_saved ud name;
        if saved : bool then
          Ok (self, ud, [CallIsSaved name; Print AlreadySaved], Continue)
        else
          ud ← add_save ud name d;
          Ok (self, ud,
              [CallIsSaved name; CallAddSave name d; Print ExerciseSaved], Continue)
    | None => Raise TypeError
    end
  else if String.eqb key "u" && String.eqb (mode self) "exercise"
          && truthy (display_data self) then
    match display_data self with
    | Some d =>
        name ← dict_item d "name";
        saved ← is_saved ud name;
        if negb saved then
          Ok (self, ud, [CallIsSaved name; Print NotSaved], Continue)
        else
          ud ← delete_save ud name;
          Ok (self, ud,
              [CallIsSaved name; CallDeleteSave name; Print ExerciseUnsaved], Continue)
    | None => Raise TypeError
    end
  else if String.eqb key "e" && String.eqb (mode self) "nutrition"
          && truthy (display_data self) then
    if negb (bool_decide (current_page self ∈ eaten_pages self)) then
      let consumed_calories := page_calories self in
      '(ud, check) ← track_consumed_calories ud consumed_calories;
      let check : bool * pynum := check in
      let self := set_eaten_pages self (eaten_pages self ++ [current_page self]) in
      dlg ← (if check.1 then Ok KeepItUp
             else excess ← num_sub check.2 (goal ud); Ok (OverGoal excess));
      Ok (self, ud,
          [CallTrackConsumedCalories consumed_calories;
           Print (CaloriesAdded consumed_calories dlg)], Continue)
    else Ok (self, ud, [Print AlreadyAdded], Continue)
  else if String.eqb key "m" then Ok (self, ud, [], Break)
  else Ok (self, ud, [Print InvalidInput], Continue).

(** One turn of [while True]: the prompt, then the command read. *)
Definition iteration (self : Pagination) (ud : U) (user_input : string) : result (Pagination * U * list event * control) :=
  evs ← input_text self ud;
  '(self, ud, evs', c) ← command self ud user_input;
  Ok (self, ud, evs ++ evs', c).

(** The loop on the lines typed so far; with none left the engine has printed
    its prompt and waits in [input]. *)
Fixpoint loop (self : Pagination) (ud : U) (inputs : list string) : result (Pagination * U * list event * control) :=
  match inputs with
  | [] => evs ← input_text self ud; Ok (self, ud, evs, Continue)
  | user_input :: rest =>
      '(self, ud, evs, c) ← iteration self ud user_input;
      match c with
      | Break => Ok (self, ud, evs, Break)
      | Continue =>
          '(self, ud, evs', c') ← loop self ud rest;
          Ok (self, ud, evs ++ evs', c')
      end
  end.

(** Lines 558-563: the state in which the loop is entered. Every attribute
    other than [page_size] is assigned before it is read. *)
Definition paginate_start (size : Z) (data : list record) (mode : string) : result (Pagination * list event) :=
  total ← count_pages (Z.of_nat (length data)) size;
  let self :=
    mkPagination size data total 1 mode true "" (NInt 0) (NInt 0) (NInt 0)
      (NInt 0) None [] in
  '(self, evs) ← display_page float_repr self;
  Ok (set_eaten_pages self [], evs).

Definition paginate (size : Z) (ud : U) (data : list record) (mode : string) (inputs : list string) : result (Pagination * U * list event * control) :=
  '(self, evs) ← paginate_start size data mode;
  '(self, ud, evs', c) ← loop self ud inputs;
  Ok (self, ud, evs ++ evs', c).

End Session.

(** ** Reference definitions for the statements below *)

(** [ceil(a / b)] for a positive [b]. *)
Definition ceil_div (a b : Z) : Z := - ((- a) / b).

(** A record's serving size and its calories per 100 g, as lines 461-463
    compute them. *)
Definition normalized (d : record) : result (pynum * pynum) :=
  serving_size ← as_num (dict_get d "serving_size_g" (pint 100));
  factor ← num_truediv (NInt 100) serving_size;
  calories ← py_mul (dict_get d "calories" (pint 0)) factor;
  Ok (serving_size, calories).

(** [serving_size_g < 100] and normalized calories [> 300]. *)
Definition calorie_dense (d : record) : bool :=
  match normalized d with
  | Ok (serving_size, calories) => num_lt serving_size 100 && num_gt calories 300
  | Raise _ => false
  end.

(** Field [k] of a record scaled by [factor = 100 / serving_size_g]. *)
Definition normalized_field (d : record) (k : string) : result pynum :=
  serving_size ← as_num (dict_get d "serving_size_g" (pint 100));
  factor ← num_truediv (NInt 100) serving_size;
  py_mul (dict_get d k (pint 0)) factor.

(** The sum, in page order and from the int [0], of field [k] scaled. *)
Fixpoint sum_normalized (acc : pynum) (page_data : list record) (k : string) : result pynum :=
  match page_data with
  | [] => Ok acc
  | d :: rest =>
      v ← normalized_field d k;
      acc ← num_add acc v;
      sum_normalized acc rest k
  end.

Section MindfulScan.

Variable float_repr : float → string.

Definition name_text (d : record) : string :=
  py_str float_repr (dict_get d "name" PNone).

(** The scan as the specification words it: a step of a left fold over the
    page with accumulator [(serving_size_check, mindful_food)]. *)
Definition mindful_step (acc : bool * string) (d : record) : bool * string :=
  if calorie_dense d then
    if acc.1 then (false, name_text d)
    else (false, acc.2 +:+ " and " +:+ name_text d)
  else acc.

Definition mindful_scan (page_data : list record) : bool * string :=
  fold_left mindful_step page_data (true, "").

End MindfulScan.

(** The advice texts. *)
Definition low_calorie_message : string :=
  "Low-calorie: Suitable for a healthy diet. Consider incorporating a variety of nutrient-dense foods.".
Definition balanced_message : string :=
  "Moderate-calorie: Balanced nutritional content. Enjoy in moderation as part of a well-rounded diet.".
Definition optimizing_message : string :=
  "Moderate-calorie: Consider optimizing your nutritional balance.".
Definition healthy_fats_clause : string :=
  " Increase healthy fats for sustained energy.".
Definition saturated_fats_clause : string :=
  " Limit saturated fats for heart health.".
Definition protein_clause : string :=
  " Include more protein sources for muscle maintenance.".
Definition sugars_clause : string :=
  " Be mindful of added sugars for overall well-being.".
Definition high_calorie_message : string :=
  "High-calorie: Consider consuming in moderation. Check nutritional values for a balanced and varied diet.".

(** The mindful-food warning naming [names]. *)
Definition mindful_food_warning (names : string) : string :=
  nl +:+ "Be mindful of " +:+ names
  +:+ ". Small amount occasionally can be okay, but try to focus on a balanced diet overall.".

(** A clause that is appended only when its condition holds. *)
Definition clause (b : bool) (s : string) : string := if b then s else "".

(** The condition of the balanced message. *)
Definition balanced (self : Pagination) : bool :=
  num_ge (page_fat self) 10 && num_le (page_fat self) 20
  && (num_ge (page_protein self) 5 && num_le (page_protein self) 20)
  && num_le (page_sugar self) 10.

(** The state [display_page] starts its loop from. *)
Definition reset_page (self : Pagination) : Pagination :=
  set_page_values self true "" (NInt 0) (NInt 0) (NInt 0) (NInt 0).

(** The attributes [display_page] leaves alone. *)
Definition same_session (a b : Pagination) : Prop :=
  page_size a = page_size b ∧ data a = data b
  ∧ total_pages a = total_pages b ∧ current_page a = current_page b
  ∧ mode a = mode b ∧ eaten_pages a = eaten_pages b.

(** The six attributes [display_page] recomputes. *)
Definition page_values (self : Pagination) : bool * string * (pynum * pynum * pynum * pynum) :=
  (serving_size_check self, mindful_food self,
   (page_calories self, page_fat self, page_protein self, page_sugar self)).

(** What one or more turns of the loop may do to the object: the result set,
    its page count, the page size and the mode stay; [current_page] stays
    within 1 and [max(1, total_pages)]; the pages eaten stay distinct and grow
    by one per call to the ledger recorded in [evs]. *)
Definition advances (self : Pagination) (evs : list event) (self' : Pagination) : Prop :=
  page_size self' = page_size self ∧ data self' = data self
  ∧ total_pages self' = total_pages self ∧ mode self' = mode self
  ∧ (1 ≤ current_page self ≤ Z.max 1 (total_pages self) →
     1 ≤ current_page self' ≤ Z.max 1 (total_pages self))
  ∧ (NoDup (eaten_pages self) →
     NoDup (eaten_pages self')
     ∧ length (eaten_pages self')
       = (length (eaten_pages self) + length (List.filter is_ledger_call evs))%nat).

(** ** Further reference definitions *)

(** The page numbers [1 .. n]. *)
Definition page_numbers (n : Z) : list Z := Z.of_nat <$> seq 1 (Z.to_nat n).

(** Whether the options line offers [n], and whether it offers [p]. *)
Definition offers_next (nav : nav_options) : bool :=
  match nav with NavNext | NavBoth => true | _ => false end.
Definition offers_previous (nav : nav_options) : bool :=
  match nav with NavPrevious | NavBoth => true | _ => false end.

(** The calls that write to the table of saved exercises. *)
Definition is_save_call (e : event) : bool :=
  match e with
  | CallAddSave _ _ | CallDeleteSave _ => true
  | _ => false
  end.

(** A record holding every key of [ks]. *)
Definition has_fields (ks : list string) (d : record) : bool :=
  forallb (fun k => bool_decide (is_Some (d !! k))) ks.

Definition is_float_field (d : record) (k : string) : bool :=
  match d !! k with
  | Some (PNum (NFloat _)) => true
  | _ => false
  end.

(** A nutrition record as the provider sends it: the twelve fields, a string
    for a name, floats for the fields [display_page] computes with, and a
    serving size other than zero. *)
Definition well_formed_food (d : record) : bool :=
  has_fields nutrition_fields d
  && match d !! "name" with Some (PStr _) => true | _ => false end
  && match d !! "serving_size_g" with
     | Some (PNum (NFloat f)) => negb (float_is_zero f)
     | _ => false
     end
  && is_float_field d "calories" && is_float_field d "fat_total_g"
  && is_float_field d "protein_g" && is_float_field d "sugar_g".

(** An exercise session whose records all hold the six exercise fields, and
    whose [display_data], when it is a record, is one of them. *)
Definition exercise_ready (self : Pagination) : Prop :=
  mode self = "exercise"
  ∧ (∀ d, d ∈ data self → has_fields exercise_fields d = true)
  ∧ (∀ d, display_data self = Some d → d ∈ data self).

(** A store whose calls about saved exercises return, whatever its state, on
    the records of [rs] under their names. *)
Definition saves_return {U : Type} `{!UserDataOps U} (rs : list record) : Prop :=
  ∀ (u : U) (d : record) (name : pyval),
    d ∈ rs → d !! "name" = Some name →
    (∃ saved, is_saved u name = Ok saved)
    ∧ (∃ u', add_save u name d = Ok u')
    ∧ (∃ u', delete_save u name = Ok u').

(** A page total as [display_page] holds it: the int [0] it starts from, or a
    float. *)
Definition zero_or_float (n : pynum) : bool :=
  match n with
  | NInt 0 | NFloat _ => true
  | NInt _ => false
  end.

(** ** Sample data *)

(** A float [repr] for running the samples, none of which prints a float name. *)
Definition sample_repr (f : float) : string := "float".

(** A nutrition record with the twelve fields the provider sends. *)
Definition food (name : string) (calories serving_size fat protein sugar : Z) : record :=
  <["name" := PStr name]> (<["calories" := pint calories]>
  (<["serving_size_g" := pint serving_size]> (<["fat_total_g" := pint fat]>
  (<["fat_saturated_g" := pint 0]> (<["protein_g" := pint protein]>
  (<["sodium_mg" := pint 0]> (<["potassium_mg" := pint 0]>
  (<["cholesterol_mg" := pint 0]> (<["carbohydrates_total_g" := pint 0]>
  (<["fiber_g" := pint 0]> (<["sugar_g" := pint sugar]> ∅))))))))))).

(** A record with only the three fields of the worked example. *)
Definition bare_food (name : string) (calories serving_size : Z) : record :=
  <["name" := PStr name]> (<["calories" := pint calories]>
  (<["serving_size_g" := pint serving_size]> ∅)).

Definition exercise (name : string) : record :=
  <["name" := PStr name]> (<["type" := PStr "strength"]>
  (<["muscle" := PStr "quadriceps"]> (<["equipment" := PStr "barbell"]>
  (<["difficulty" := PStr "beginner"]> (<["instructions" := PStr "..."]> ∅))))).

(** An in-memory [UserData] for the samples: saved exercises by name, the
    [Consumed] value of today's row of [DailyCalories] and the goal. The value
    is [None] when the table holds no row for today or holds NULL there; the
    rounding to one decimal is left out. *)
Record MemStore := mkMemStore {
  mem_saved : gmap string record;
  mem_consumed : option pynum;
  mem_goal : Z
}.

Definition is_nan (n : pynum) : bool :=
  match n with
  | NInt _ => false
  | NFloat f => PrimFloat.is_nan f
  end.

(** An int SQLite can bind: one of 64 bits. *)
Definition binds (name : pyval) : bool :=
  match name with
  | PNum (NInt z) => (- 2 ^ 63 <=? z) && (z <? 2 ^ 63)
  | _ => true
  end.

(** Lines 209-219 with [get_consumed_calories] (lines 228-231): the [UPDATE]
    changes today's row if there is one, and SQLite keeps a nan as NULL; then
    [round(consumed[0], 1)] raises [TypeError] when [fetchone()] gave no row or
    a row holding NULL. *)
Definition mem_track (st : MemStore) (consumed : pynum) : result (MemStore * (bool * pynum)) :=
  match mem_consumed st with
  | None => Raise TypeError
  | Some c =>
      total ← num_add c consumed;
      if is_nan total then Raise TypeError
      else
        Ok (mkMemStore (mem_saved st) (Some total) (mem_goal st),
            (num_lt total (mem_goal st), total))
  end.

(** The saved exercises are kept under string names; a name of another type
    matches none of them, and an int outside 64 bits cannot be bound
    ([OverflowError]). *)
#[global] Instance MemStore_ops : UserDataOps MemStore := {
  is_saved st name :=
    if binds name then
      match name with
      | PStr s => Ok (bool_decide (is_Some (mem_saved st !! s)))
      | _ => Ok false
      end
    else Raise OverflowError;
  add_save st name d :=
    if binds name then
      match name with
      | PStr s =>
          Ok (mkMemStore (<[s := d]> (mem_saved st)) (mem_consumed st) (mem_goal st))
      | _ => Ok st
      end
    else Raise OverflowError;
  delete_save st name :=
    if binds name then
      match name with
      | PStr s =>
          Ok (mkMemStore (delete s (mem_saved st)) (mem_consumed st) (mem_goal st))
      | _ => Ok st
      end
    else Raise OverflowError;
  track_consumed_calories := mem_track;
  goal st := NInt (mem_goal st)
}.

Definition empty_store : MemStore := mkMemStore ∅ (Some (NInt 1800)) 2000.


Definition seven_exercises : list record :=
  [exercise "Squat"; exercise "Lunge"; exercise "Deadlift"; exercise "Plank";
   exercise "Curl"; exercise "Press"; exercise "Row"].

(** An object on its first page, before [display_page] has run. *)
Definition sample_session (size : Z) (data : list record) (mode : string) : Pagination :=
  mkPagination size data (ceil_div (Z.of_nat (length data)) size) 1 mode true ""
    (NInt 0) (NInt 0) (NInt 0) (NInt 0) None [].

(** The object as [paginate] leaves it when the loop is entered. *)
Definition shown (size : Z) (rs : list record) (md : string) : Pagination :=
  match paginate_start sample_repr size rs md with
  | Ok (self, _) => self
  | Raise _ => sample_session size rs md
  end.

(** An object holding given page values. *)
Definition with_values (check : bool) (mindful : string) (calories fat protein sugar : pynum) : Pagination :=
  set_page_values (sample_session 2 [] "nutrition") check mindful calories fat
    protein sugar.

Definition three_foods : list record :=
  [food "A" 400 50 1 1 1; food "C" 90 20 0 0 0; food "B" 200 100 1 1 1].

(** A nutrition record with float values, as the provider sends them. *)
Definition float_food (name : string) (calories serving_size fat protein sugar : float) : record :=
  <["name" := PStr name]> (<["calories" := PNum (NFloat calories)]>
  (<["serving_size_g" := PNum (NFloat serving_size)]>
  (<["fat_total_g" := PNum (NFloat fat)]>
  (<["fat_saturated_g" := PNum (NFloat 0)]>
  (<["protein_g" := PNum (NFloat protein)]>
  (<["sodium_mg" := pint 0]> (<["potassium_mg" := pint 0]>
  (<["cholesterol_mg" := pint 0]>
  (<["carbohydrates_total_g" := PNum (NFloat 0)]>
  (<["fiber_g" := PNum (NFloat 0)]>
  (<["sugar_g" := PNum (NFloat sugar)]> ∅))))))))))).


Definition two_float_foods : list record :=
  [float_food "brisket" 1312.5 453.5 82.5 132 0;
   float_food "fries" 317.5 100 14.75 3.5 0.25].

(** The value of a computation that returned. *)
Definition returned {A} (dflt : A) (r : result A) : A :=
  match r with
  | Ok a => a
  | Raise _ => dflt
  end.

(** A sample session entered, and run on some input lines. *)
Definition started (size : Z) (rs : list record) (md : string) : Pagination * list event :=
  returned (sample_session size rs md, []) (paginate_start sample_repr size rs md).

Definition run (size : Z) (rs : list record) (md : string) (inputs : list string) : Pagination * MemStore * list event * control :=
  returned (sample_session size rs md, empty_store, [], Continue)
    (paginate sample_repr size empty_store rs md inputs).

(** * Properties *)

(** ** Strings and the error monad *)

Lemma append_nil_r (s : string) : s +:+ "" = s.
Proof.
  induction s as [|c s IH]; [done|].
  change (String c (s +:+ "") = String c s). by f_equal.
Qed.

Lemma append_assoc (s t u : string) : (s +:+ t) +:+ u = s +:+ t +:+ u.
Proof.
  induction s as [|c s IH]; [done|].
  change (String c ((s +:+ t) +:+ u) = String c (s +:+ t +:+ u)). by f_equal.
Qed.

Lemma bind_Ok_inv {A B} (m : result A) (f : A → result B) (b : B) :
  m ≫= f = Ok b → ∃ a, m = Ok a ∧ f a = Ok b.
Proof. destruct m as [a|e]; simpl; [eauto | discriminate]. Qed.

Lemma bind_Ok {A B} (a : A) (f : A → result B) : Ok a ≫= f = f a.
Proof. reflexivity. Qed.

(** ** Comparisons with an int literal *)

Lemma pow2_pos (e : Z) : 0 ≤ e → 0 < 2 ^ e.
Proof. intros; by apply Z.pow_pos_nonneg. Qed.

Lemma SF_compare_int_Lt_mono x k1 k2 :
  SF_compare_int x k1 = Some Lt → k1 ≤ k2 → SF_compare_int x k2 = Some Lt.
Proof.
  destruct x as [s|s| |s m e]; cbn [SF_compare_int]; try done.
  - intros [= H] Hk. f_equal. destruct k1, k2; simpl in *; done || lia.
  - intros [= H] Hk. f_equal.
    set (v := if s then Z.neg m else Z.pos m) in *. clearbody v.
    destruct e as [|p|p]; apply (proj1 (Z.compare_lt_iff _ _)) in H;
      apply (proj2 (Z.compare_lt_iff _ _)).
    + rewrite Z.pow_0_r in H |- *. lia.
    + pose proof (pow2_pos (Z.pos p) ltac:(lia)). nia.
    + pose proof (pow2_pos (Z.pos p) ltac:(lia)). nia.
Qed.

Lemma SF_compare_int_Gt_mono x k1 k2 :
  SF_compare_int x k2 = Some Gt → k1 ≤ k2 → SF_compare_int x k1 = Some Gt.
Proof.
  destruct x as [s|s| |s m e]; cbn [SF_compare_int]; try done.
  - intros [= H] Hk. f_equal. destruct k1, k2; simpl in *; done || lia.
  - intros [= H] Hk. f_equal.
    set (v := if s then Z.neg m else Z.pos m) in *. clearbody v.
    destruct e as [|p|p]; apply (proj1 (Z.compare_gt_iff _ _)) in H;
      apply (proj2 (Z.compare_gt_iff _ _)).
    + rewrite Z.pow_0_r in H |- *. lia.
    + pose proof (pow2_pos (Z.pos p) ltac:(lia)). nia.
    + pose proof (pow2_pos (Z.pos p) ltac:(lia)). nia.
Qed.

Lemma num_compare_int_Lt_mono n k1 k2 :
  num_compare_int n k1 = Some Lt → k1 ≤ k2 → num_compare_int n k2 = Some Lt.
Proof.
  destruct n as [z|f]; cbn [num_compare_int]; [|apply SF_compare_int_Lt_mono].
  intros [= H] Hk. f_equal. apply (proj1 (Z.compare_lt_iff _ _)) in H.
    apply (proj2 (Z.compare_lt_iff _ _)). lia.
Qed.

Lemma num_compare_int_Gt_mono n k1 k2 :
  num_compare_int n k2 = Some Gt → k1 ≤ k2 → num_compare_int n k1 = Some Gt.
Proof.
  destruct n as [z|f]; cbn [num_compare_int]; [|apply SF_compare_int_Gt_mono].
  intros [= H] Hk. f_equal. apply (proj1 (Z.compare_gt_iff _ _)) in H.
    apply (proj2 (Z.compare_gt_iff _ _)). lia.
Qed.

Lemma num_lt_inv n k : num_lt n k = true → num_compare_int n k = Some Lt.
Proof. unfold num_lt. by destruct (num_compare_int n k) as [[]|]. Qed.

Lemma num_gt_inv n k : num_gt n k = true → num_compare_int n k = Some Gt.
Proof. unfold num_gt. by destruct (num_compare_int n k) as [[]|]. Qed.

(** [n >= k] excludes [n < k]. *)
Lemma num_ge_not_lt n k : num_ge n k = true → num_lt n k = false.
Proof. unfold num_ge, num_lt. by destruct (num_compare_int n k) as [[]|]. Qed.

(** [n < k1] excludes [n > k2] for [k1 <= k2]. *)
Lemma num_lt_not_gt n k1 k2 : k1 ≤ k2 → num_lt n k1 = true → num_gt n k2 = false.
Proof.
  intros Hk H%num_lt_inv. unfold num_gt.
  by rewrite (num_compare_int_Lt_mono n k1 k2 H Hk).
Qed.

(** [n > k2] excludes [n < k1] and [n <= k2] for [k1 <= k2]. *)
Lemma num_gt_not_lt n k1 k2 : k1 ≤ k2 → num_gt n k2 = true → num_lt n k1 = false.
Proof.
  intros Hk H%num_gt_inv. unfold num_lt.
  by rewrite (num_compare_int_Gt_mono n k1 k2 H Hk).
Qed.

Lemma num_gt_not_le n k : num_gt n k = true → num_le n k = false.
Proof. unfold num_gt, num_le. by destruct (num_compare_int n k) as [[]|]. Qed.

(** ** AdvisoryEngine *)

(** C3. For every page aggregate the advice follows the threshold table:
    calories below 100 give the low-calorie message alone; calories from 100
    to 300 give the balanced message when 10 <= fat <= 20, 5 <= protein <= 20
    and sugar <= 10, and otherwise the "consider optimizing" message followed
    by each clause that applies (fat < 10, fat > 20, protein < 5, sugar > 10,
    and, when [serving_size_check] is false, the warning "Be mindful of" that
    names [mindful_food]); calories above 300 give the high-calorie message,
    followed by the same warning when [serving_size_check] is false. *)
Theorem advice_threshold_table (self : Pagination) :
  (num_lt (page_calories self) 100 = true →
     nutritional_advice self = low_calorie_message)
  ∧ (num_ge (page_calories self) 100 = true →
     num_le (page_calories self) 300 = true →
     balanced self = true →
     nutritional_advice self = balanced_message)
  ∧ (num_ge (page_calories self) 100 = true →
     num_le (page_calories self) 300 = true →
     balanced self = false →
     nutritional_advice self =
       optimizing_message
       +:+ clause (num_lt (page_fat self) 10) healthy_fats_clause
       +:+ clause (num_gt (page_fat self) 20) saturated_fats_clause
       +:+ clause (num_lt (page_protein self) 5) protein_clause
       +:+ clause (num_gt (page_sugar self) 10) sugars_clause
       +:+ clause (negb (serving_size_check self)) 
           (mindful_food_warning (mindful_food self)))
  ∧ (num_gt (page_calories self) 300 = true →
     nutritional_advice self =
       high_calorie_message
       +:+ clause (negb (serving_size_check self)) 
           (mindful_food_warning (mindful_food self))).
Proof.
  repeat split.
  - intros H. unfold nutritional_advice. by rewrite H.
  - intros Hge Hle Hb. unfold nutritional_advice.
    rewrite (num_ge_not_lt _ _ Hge), Hge, Hle. simpl.
    unfold balanced in Hb. by rewrite Hb.
  - intros Hge Hle Hb. unfold nutritional_advice.
    rewrite (num_ge_not_lt _ _ Hge), Hge, Hle. simpl.
    unfold balanced in Hb. rewrite Hb.
    assert (Hfat : num_lt (page_fat self) 10 = true →
                   num_gt (page_fat self) 20 = false)
      by (apply num_lt_not_gt; lia).
    unfold clause, mindful_food_warning.
    destruct (num_lt (page_fat self) 10);
      [rewrite Hfat by done|destruct (num_gt (page_fat self) 20)];
      destruct (num_lt (page_protein self) 5);
      destruct (num_gt (page_sugar self) 10);
      destruct (serving_size_check self); simpl negb; cbv iota;
      rewrite ?append_assoc, ?append_nil_r; reflexivity.
  - intros Hgt. unfold nutritional_advice.
    rewrite (num_gt_not_lt _ 100 300) by (done || lia).
    rewrite (num_gt_not_le _ _ Hgt), andb_false_r.
    unfold clause, mindful_food_warning.
    destruct (serving_size_check self); simpl negb; cbv iota;
      rewrite ?append_nil_r; reflexivity.
Qed.

(** ** PageAggregator: one record *)

Section RenderingFacts.

Variable float_repr : float → string.

Lemma same_session_refl self : same_session self self.
Proof. by repeat split. Qed.

Lemma same_session_trans a b c :
  same_session a b → same_session b c → same_session a c.
Proof.
  unfold same_session. intros (?&?&?&?&?&?) (?&?&?&?&?&?).
  repeat split; congruence.
Qed.

(** What a successful [accumulate_nutrition] computed, step by step. *)
Lemma accumulate_nutrition_inv self d self' :
  accumulate_nutrition float_repr self d = Ok self' →
  ∃ serving_size calories fat protein sugar check mindful cal' fat' protein' sugar',
    normalized d = Ok (serving_size, calories)
    ∧ normalized_field d "calories" = Ok calories
    ∧ normalized_field d "fat_total_g" = Ok fat
    ∧ normalized_field d "protein_g" = Ok protein
    ∧ normalized_field d "sugar_g" = Ok sugar
    ∧ (if num_ge serving_size 100 && serving_size_check self then
         Ok (true, mindful_food self)
       else if negb (serving_size_check self) then
         if num_lt serving_size 100 && num_gt calories 300 then
           Ok (serving_size_check self,
               mindful_food self +:+ " and " +:+ name_text float_repr d)
         else Ok (serving_size_check self, mindful_food self)
       else
         if num_lt serving_size 100 && num_gt calories 300 then
           mindful ← str_concat (mindful_food self) (dict_get d "name" PNone);
           Ok (false, mindful)
         else Ok (serving_size_check self, mindful_food self))
      = Ok (check, mindful)
    ∧ num_add (page_calories self) calories = Ok cal'
    ∧ num_add (page_fat self) fat = Ok fat'
    ∧ num_add (page_protein self) protein = Ok protein'
    ∧ num_add (page_sugar self) sugar = Ok sugar'
    ∧ self' = set_page_values self check mindful cal' fat' protein' sugar'.
Proof.
  unfold accumulate_nutrition. intros H.
  repeat (apply bind_Ok_inv in H as (? & ? & H)).
  match goal with p : (bool * string)%type |- _ => destruct p as [check mindful] end.
  repeat (apply bind_Ok_inv in H as (? & ? & H)).
  injection H as <-.
  unfold normalized, normalized_field, name_text.
  repeat match goal with
         | E : as_num _ = Ok _ |- _ => rewrite E, !bind_Ok
         | E : num_truediv _ _ = Ok _ |- _ => rewrite E, !bind_Ok
         | E : py_mul (dict_get _ "calories" _) _ = Ok _ |- _ => rewrite E, !bind_Ok
         end.
  do 11 eexists. repeat split; eassumption.
Qed.

Lemma accumulate_nutrition_frame self d self' :
  accumulate_nutrition float_repr self d = Ok self' →
  same_session self self' ∧ display_data self' = display_data self.
Proof.
  intros H. apply accumulate_nutrition_inv in H.
  destruct H as (?&?&?&?&?&?&?&?&?&?&?&_&_&_&_&_&_&_&_&_&_&->).
  by repeat split.
Qed.

Lemma calorie_dense_normalized d serving_size calories :
  normalized d = Ok (serving_size, calories) →
  calorie_dense d = num_lt serving_size 100 && num_gt calories 300.
Proof. unfold calorie_dense. by intros ->. Qed.

(** On a state where nothing is flagged yet, or something already is, the
    three-way branch of lines 465-477 is one step of the fold. *)
Lemma accumulate_nutrition_scan self d self' :
  accumulate_nutrition float_repr self d = Ok self' →
  (serving_size_check self = true → mindful_food self = "") →
  (serving_size_check self', mindful_food self')
  = mindful_step float_repr (serving_size_check self, mindful_food self) d.
Proof.
  intros H Hinv. apply accumulate_nutrition_inv in H.
  destruct H as (ss&cal&?&?&?&check&mindful&?&?&?&?&Hn&_&_&_&_&Hscan&_&_&_&_&->).
  unfold mindful_step. rewrite (calorie_dense_normalized _ _ _ Hn).
  cbn [set_page_values serving_size_check mindful_food fst snd].
  destruct (serving_size_check self) eqn:Hc.
  - rewrite andb_true_r in Hscan. destruct (num_ge ss 100) eqn:Hge.
    + rewrite (num_ge_not_lt _ _ Hge). simpl. by injection Hscan as <- <-.
    + cbn [negb] in Hscan.
      destruct (num_lt ss 100 && num_gt cal 300); [|by injection Hscan as <- <-].
      apply bind_Ok_inv in Hscan as (m & Hm & [= <- <-]).
      rewrite (Hinv eq_refl) in Hm. unfold name_text.
      destruct (dict_get d "name" PNone); try discriminate.
      by injection Hm as <-.
  - rewrite andb_false_r in Hscan. cbn [negb] in Hscan.
    destruct (num_lt ss 100 && num_gt cal 300); by injection Hscan as <- <-.
Qed.

(** ** PageAggregator: a page *)

Lemma mindful_step_unflagged acc d :
  (mindful_step float_repr acc d).1 = true →
  acc.1 = true ∧ mindful_step float_repr acc d = acc.
Proof.
  unfold mindful_step. destruct (calorie_dense d); [|done].
  by destruct acc.1.
Qed.

(** ** [display_page] *)

Lemma display_record_inv self d self' evs :
  display_record float_repr self d = Ok (self', evs) →
  same_session self self' ∧ display_data self' = Some d
  ∧ (mode self = "exercise" →
       page_values self' = page_values self
       ∧ ∃ vs, display_items (set_display_data self (Some d)) exercise_fields = Ok vs)
  ∧ (mode self = "nutrition" →
       accumulate_nutrition float_repr (set_display_data self (Some d)) d = Ok self').
Proof.
  unfold display_record. cbn [mode set_display_data].
  destruct (String.eqb (mode self) "exercise") eqn:He.
  - intros H. apply bind_Ok_inv in H as (e1 & H1 & [= <- <-]).
    split; [by repeat split|]. split; [done|]. split.
    + intros _. split; [done|]. unfold display_exercise in H1.
      apply bind_Ok_inv in H1 as (vs & Hvs & _). by exists vs.
    + intros Hm. rewrite Hm in He. discriminate.
  - destruct (String.eqb (mode self) "nutrition") eqn:Hn.
    + intros H. apply bind_Ok_inv in H as (s1 & H1 & H).
      apply bind_Ok_inv in H as (e1 & H2 & [= <- <-]).
      pose proof (accumulate_nutrition_frame _ _ _ H1) as [Hf Hd].
      split; [exact Hf|]. split; [by rewrite Hd|]. split.
      * intros Hm. rewrite Hm in He. discriminate.
      * intros _. exact H1.
    + intros [= <- <-]. split; [by repeat split|]. split; [done|]. split.
      * intros Hm. rewrite Hm in He. discriminate.
      * intros Hm. rewrite Hm in Hn. discriminate.
Qed.

Lemma display_records_frame page : ∀ self self' evs,
  display_records float_repr self page = Ok (self', evs) →
  same_session self self'
  ∧ display_data self' =
      match last page with Some d => Some d | None => display_data self end.
Proof.
  induction page as [|d rest IH]; intros self self' evs H; simpl in H.
  - injection H as <- <-. split; [apply same_session_refl | done].
  - apply bind_Ok_inv in H as ([s1 e1] & H1 & H).
    apply bind_Ok_inv in H as ([s2 e2] & H2 & [= <- <-]).
    apply display_record_inv in H1 as (Hf & Hd & _).
    apply IH in H2 as [Hf2 Hd2]. split.
    + by eapply same_session_trans.
    + rewrite Hd2, Hd, last_cons. by destruct (last rest).
Qed.

(** In nutrition mode the flag and the names follow the fold, record by
    record: [display_nutrition] changes no attribute. *)
Lemma display_records_scan page : ∀ self self' evs,
  mode self = "nutrition" →
  display_records float_repr self page = Ok (self', evs) →
  (serving_size_check self = true → mindful_food self = "") →
  (serving_size_check self', mindful_food self')
  = fold_left (mindful_step float_repr) page
      (serving_size_check self, mindful_food self).
Proof.
  induction page as [|d rest IH]; intros self self' evs Hm H Hinv; simpl in H.
  - by injection H as <- <-.
  - apply bind_Ok_inv in H as ([s1 e1] & H1 & H).
    apply bind_Ok_inv in H as ([s2 e2] & H2 & [= <- <-]).
    apply display_record_inv in H1 as (Hf & _ & _ & Hacc).
    specialize (Hacc Hm).
    apply accumulate_nutrition_scan in Hacc as Hstep; [|exact Hinv].
    cbn [set_display_data serving_size_check mindful_food] in Hstep.
    cbn [fold_left]. rewrite <- Hstep. eapply IH; [|exact H2|].
    + destruct Hf as (_&_&_&_&<-&_). exact Hm.
    + intros Hc. pose proof (mindful_step_unflagged
        (serving_size_check self, mindful_food self) d) as Hu.
      rewrite <- Hstep in Hu. cbn [fst snd] in Hu.
      destruct (Hu Hc) as [Hc0 Heq]. injection Heq as _ ->. by apply Hinv.
Qed.

(** The totals are the sums, in page order, of the scaled fields. *)
Lemma display_records_totals page : ∀ self self' evs,
  mode self = "nutrition" →
  display_records float_repr self page = Ok (self', evs) →
  sum_normalized (page_calories self) page "calories" = Ok (page_calories self')
  ∧ sum_normalized (page_fat self) page "fat_total_g" = Ok (page_fat self')
  ∧ sum_normalized (page_protein self) page "protein_g" = Ok (page_protein self')
  ∧ sum_normalized (page_sugar self) page "sugar_g" = Ok (page_sugar self').
Proof.
  induction page as [|d rest IH]; intros self self' evs Hm H; simpl in H.
  - by injection H as <- <-.
  - apply bind_Ok_inv in H as ([s1 e1] & H1 & H).
    apply bind_Ok_inv in H as ([s2 e2] & H2 & [= <- <-]).
    apply display_record_inv in H1 as (Hf & _ & _ & Hacc).
    specialize (Hacc Hm).
    assert (Hm1 : mode s1 = "nutrition") by (destruct Hf as (_&_&_&_&<-&_); done).
    apply accumulate_nutrition_inv in Hacc.
    destruct Hacc as (?&?&?&?&?&?&?&?&?&?&?&_&Hc&Hf'&Hp&Hs&_&Ac&Af&Ap&As&->).
    apply (IH _ _ _ Hm1) in H2.
    cbn [set_page_values set_display_data page_calories page_fat
      page_protein page_sugar] in *.
    cbn [sum_normalized]. rewrite Hc, Hf', Hp, Hs, !bind_Ok, Ac, Af, Ap, As, !bind_Ok.
    exact H2.
Qed.

(** In exercise mode the page values stay as they are, and every record shown
    has the six exercise fields. *)
Lemma display_records_exercise page : ∀ self self' evs,
  mode self = "exercise" →
  display_records float_repr self page = Ok (self', evs) →
  page_values self' = page_values self
  ∧ ∀ d, d ∈ page → ∃ name, d !! "name" = Some name.
Proof.
  induction page as [|d rest IH]; intros self self' evs Hm H; simpl in H.
  - injection H as <- <-. split; [done|]. intros d Hd. by apply elem_of_nil in Hd.
  - apply bind_Ok_inv in H as ([s1 e1] & H1 & H).
    apply bind_Ok_inv in H as ([s2 e2] & H2 & [= <- <-]).
    apply display_record_inv in H1 as (Hf & _ & Hex & _).
    destruct (Hex Hm) as [Hv [vs Hvs]].
    assert (Hm1 : mode s1 = "exercise") by (destruct Hf as (_&_&_&_&<-&_); done).
    destruct (IH _ _ _ Hm1 H2) as [Hv2 Hall]. split; [congruence|].
    intros d' [->|Hin]%elem_of_cons; [|by apply Hall].
    simpl in Hvs. apply bind_Ok_inv in Hvs as (v & Hv' & _).
    unfold display_item in Hv'. simpl in Hv'. unfold dict_item in Hv'.
    destruct (d !! "name") as [name|]; [by exists name | discriminate].
Qed.

Lemma reset_page_frame self : same_session self (reset_page self).
Proof. by repeat split. Qed.

(** [display_page], by cases on the slice shown. *)
Lemma display_page_inv self self' evs :
  display_page float_repr self = Ok (self', evs) →
  let page := page_slice self (current_page self) in
  same_session self self'
  ∧ display_data self' = last page
  ∧ (page = [] → page_values self' = page_values (reset_page self))
  ∧ (page ≠ [] →
     ∃ evs', display_records float_repr (reset_page self) page = Ok (self', evs')).
Proof.
  unfold display_page. fold (reset_page self).
  destruct (page_slice self (current_page self)) as [|d rest] eqn:Hp; cbn zeta.
  - intros [= <- <-]. by repeat split.
  - intros H. apply bind_Ok_inv in H as ([s1 e1] & H1 & [= <- <-]).
    pose proof (display_records_frame _ _ _ _ H1) as [Hf Hd].
    split; [|split; [|split]].
    + eapply same_session_trans; [apply reset_page_frame | exact Hf].
    + rewrite Hd. by destruct (last (d :: rest)) eqn:Hl;
        [|apply last_None in Hl].
    + done.
    + intros _. by exists e1.
Qed.

(** ** The mindful-food scan *)

Lemma append_eq_nil (s t : string) : s +:+ t = "" → s = "" ∧ t = "".
Proof. destruct s; [done | discriminate]. Qed.

Lemma mindful_scan_flag page : ∀ acc,
  (fold_left (mindful_step float_repr) page acc).1 = false
  ↔ acc.1 = false ∨ ∃ d, d ∈ page ∧ calorie_dense d = true.
Proof.
  induction page as [|d rest IH]; intros acc; cbn [fold_left].
  - split; [by left|]. intros [H|(d & Hd & _)]; [done|].
    by apply elem_of_nil in Hd.
  - rewrite IH. unfold mindful_step.
    destruct (calorie_dense d) eqn:Hd.
    + split; [|by destruct acc.1; left].
      intros _. right. exists d. split; [apply elem_of_cons; by left | done].
    + split.
      * intros [H|(d' & Hin & Hd')]; [by left|].
        right. exists d'. split; [apply elem_of_cons; by right | done].
      * intros [H|(d' & [->|Hin]%elem_of_cons & Hd')]; [by left|congruence|].
        right. by exists d'.
Qed.

Lemma mindful_scan_unflagged_empty page : ∀ acc,
  (acc.1 = true → acc.2 = "") →
  (fold_left (mindful_step float_repr) page acc).1 = true →
  (fold_left (mindful_step float_repr) page acc).2 = "".
Proof.
  induction page as [|d rest IH]; intros acc Hacc; cbn [fold_left]; [done|].
  apply IH. intros H. destruct (mindful_step_unflagged _ _ H) as [H1 ->].
  by apply Hacc.
Qed.

Lemma mindful_scan_flagged_named page : ∀ acc,
  (∀ d, d ∈ page → calorie_dense d = true → name_text float_repr d ≠ "") →
  (acc.1 = false → acc.2 ≠ "") →
  (fold_left (mindful_step float_repr) page acc).1 = false →
  (fold_left (mindful_step float_repr) page acc).2 ≠ "".
Proof.
  induction page as [|d rest IH]; intros acc Hnames Hacc; cbn [fold_left]; [done|].
  apply IH.
  - intros d' Hin. apply Hnames, elem_of_cons. by right.
  - unfold mindful_step. destruct (calorie_dense d) eqn:Hd; [|done].
    intros _. destruct acc.1; cbn [snd].
    + apply Hnames; [apply elem_of_cons; by left | done].
    + intros [_ [? _]%append_eq_nil]%append_eq_nil. discriminate.
Qed.

(** C2 (as amended). Whenever [display_page] completes on a nutrition page,
    [serving_size_check] and [mindful_food] are the result of the left fold
    [mindful_scan] over the page in page order from [(true, "")]: the first
    record with serving size below 100 and normalized calories above 300
    flips the flag and sets [mindful_food] to its name, each later such record
    appends " and " and its name, every other record leaves the accumulator
    unchanged. After the scan a non-empty [mindful_food] implies that the flag
    is false, the flag is false exactly when some record of the page met the
    condition, and the flag is false exactly when [mindful_food] is non-empty
    provided the flagged records have non-empty names. *)
Theorem mindful_scan_fold (self self' : Pagination) (evs : list event) :
  mode self = "nutrition" →
  display_page float_repr self = Ok (self', evs) →
  (serving_size_check self', mindful_food self')
  = mindful_scan float_repr (page_slice self (current_page self))
  ∧ (mindful_food self' ≠ "" → serving_size_check self' = false)
  ∧ (serving_size_check self' = false
     ↔ ∃ d, d ∈ page_slice self (current_page self) ∧ calorie_dense d = true)
  ∧ ((∀ d, d ∈ page_slice self (current_page self) →
           calorie_dense d = true → name_text float_repr d ≠ "") →
     (serving_size_check self' = false ↔ mindful_food self' ≠ "")).
Proof.
  intros Hm H.
  assert (Hscan : (serving_size_check self', mindful_food self')
                  = mindful_scan float_repr (page_slice self (current_page self))).
  { apply display_page_inv in H as (_ & _ & Hnil & Hcons).
    destruct (page_slice self (current_page self)) as [|d rest] eqn:Hp.
    - specialize (Hnil eq_refl). by injection Hnil as -> ->.
    - destruct Hcons as [evs' Hr]; [done|].
      by apply display_records_scan in Hr. }
  split; [exact Hscan|].
  pose proof (f_equal fst Hscan) as Hc. pose proof (f_equal snd Hscan) as Hf.
  cbn [fst snd] in Hc, Hf. unfold mindful_scan in Hc, Hf.
  split; [|split].
  - intros Hne. destruct (serving_size_check self') eqn:Hs; [|done].
    exfalso. apply Hne. rewrite Hf.
    apply mindful_scan_unflagged_empty; [done | by rewrite <- Hc].
  - rewrite Hc, mindful_scan_flag. cbn [fst]. split; [|by right].
    by intros [|].
  - intros Hnames. split.
    + intros Hs. rewrite Hf.
      apply mindful_scan_flagged_named; [exact Hnames | done | by rewrite <- Hc].
    + intros Hne. destruct (serving_size_check self') eqn:Hs; [|done].
      exfalso. apply Hne. rewrite Hf.
      apply mindful_scan_unflagged_empty; [done | by rewrite <- Hc].
Qed.

(** ** Normalization to 100 g *)

(** X8. Every accumulated field of a record is multiplied by
    [factor = 100 / serving_size_g] before it is added: when [display_page]
    returns on a nutrition page, the page totals are the sums, in page order
    and from the int [0], of the scaled fields ([sum_normalized]). *)
Theorem page_totals_scaled_sums (self self' : Pagination) (evs : list event) :
  mode self = "nutrition" →
  display_page float_repr self = Ok (self', evs) →
  sum_normalized (NInt 0) (page_slice self (current_page self)) "calories"
    = Ok (page_calories self')
  ∧ sum_normalized (NInt 0) (page_slice self (current_page self)) "fat_total_g"
    = Ok (page_fat self')
  ∧ sum_normalized (NInt 0) (page_slice self (current_page self)) "protein_g"
    = Ok (page_protein self')
  ∧ sum_normalized (NInt 0) (page_slice self (current_page self)) "sugar_g"
    = Ok (page_sugar self').
Proof.
  intros Hm H. apply display_page_inv in H as (_ & _ & Hnil & Hcons).
  destruct (page_slice self (current_page self)) as [|d rest] eqn:Hp.
  - specialize (Hnil eq_refl). by injection Hnil as _ _ -> -> -> ->.
  - destruct Hcons as [evs' Hr]; [done|].
    by apply display_records_totals in Hr.
Qed.

End RenderingFacts.

(** ** PaginationSession: one command *)

Lemma ledger_call_is_write evs :
  List.filter is_write evs = [] → List.filter is_ledger_call evs = [].
Proof.
  induction evs as [|e evs IH]; [done|]. simpl.
  destruct e; simpl; try done; auto.
Qed.

Lemma truthy_named (d : record) k v : d !! k = Some v → truthy (Some d) = true.
Proof.
  intros H. apply bool_decide_eq_true. intros ->.
  by rewrite lookup_empty in H.
Qed.

Section SessionFacts.

Context (float_repr : float → string) {U : Type} `{!UserDataOps U}.

Lemma display_records_events page : ∀ self self' evs,
  display_records float_repr self page = Ok (self', evs) →
  List.filter is_write evs = [].
Proof.
  induction page as [|d rest IH]; intros self self' evs H; simpl in H.
  - by injection H as <- <-.
  - apply bind_Ok_inv in H as ([s1 e1] & H1 & H).
    apply bind_Ok_inv in H as ([s2 e2] & H2 & [= <- <-]).
    rewrite List.filter_app, (IH _ _ _ H2), app_nil_r.
    unfold display_record in H1.
    destruct (String.eqb _ "exercise").
    + apply bind_Ok_inv in H1 as (e & He & [= <- <-]).
      unfold display_exercise in He.
      by apply bind_Ok_inv in He as (vs & _ & [= <-]).
    + destruct (String.eqb _ "nutrition").
      * apply bind_Ok_inv in H1 as (s & _ & H1).
        apply bind_Ok_inv in H1 as (e & He & [= <- <-]).
        unfold display_nutrition in He.
        by apply bind_Ok_inv in He as (vs & _ & [= <-]).
      * by injection H1 as <- <-.
Qed.

Lemma display_page_events self self' evs :
  display_page float_repr self = Ok (self', evs) →
  List.filter is_write evs = [].
Proof.
  unfold display_page.
  destruct (page_slice self (current_page self)) as [|d rest]; cbn zeta.
  - by intros [= <- <-].
  - intros H. apply bind_Ok_inv in H as ([s1 e1] & H1 & [= <- <-]).
    simpl. by apply display_records_events in H1.
Qed.

Lemma input_text_events self (ud : U) evs :
  input_text self ud = Ok evs → List.filter is_write evs = [].
Proof.
  unfold input_text. intros H.
  apply bind_Ok_inv in H as ([option calls] & Hs & [= <-]).
  unfold save_unsave in Hs.
  destruct (_ || _).
  - injection Hs as <- <-. by destruct (eat_offered self).
  - apply bind_Ok_inv in Hs as (name & _ & Hs).
    apply bind_Ok_inv in Hs as (saved & _ & [= <- <-]).
    by destruct (eat_offered self).
Qed.

(** The five commands, each under its guard. *)
Lemma command_next self (ud : U) user_input :
  lower user_input = "n" →
  command float_repr self ud user_input =
    if current_page self <? total_pages self then
      '(self, evs) ← display_page float_repr
                       (set_current_page self (current_page self + 1));
      Ok (self, ud, evs, Continue)
    else Ok (self, ud, [Print NoNextPage], Continue).
Proof. intros H. unfold command. by rewrite H. Qed.

Lemma command_previous self (ud : U) user_input :
  lower user_input = "p" →
  command float_repr self ud user_input =
    if 1 <? current_page self then
      '(self, evs) ← display_page float_repr
                       (set_current_page self (current_page self - 1));
      Ok (self, ud, evs, Continue)
    else Ok (self, ud, [Print NoPreviousPage], Continue).
Proof. intros H. unfold command. by rewrite H. Qed.

Lemma command_save self (ud : U) user_input d name :
  lower user_input = "s" → mode self = "exercise" →
  display_data self = Some d → d !! "name" = Some name →
  command float_repr self ud user_input =
    (saved ← is_saved ud name;
     if saved : bool then
       Ok (self, ud, [CallIsSaved name; Print AlreadySaved], Continue)
     else
       ud' ← add_save ud name d;
       Ok (self, ud',
           [CallIsSaved name; CallAddSave name d; Print ExerciseSaved], Continue)).
Proof.
  intros H Hm Hd Hn. unfold command.
  rewrite H, Hm, Hd, (truthy_named _ _ _ Hn). cbn.
  unfold dict_item. by rewrite Hn.
Qed.

Lemma command_unsave self (ud : U) user_input d name :
  lower user_input = "u" → mode self = "exercise" →
  display_data self = Some d → d !! "name" = Some name →
  command float_repr self ud user_input =
    (saved ← is_saved ud name;
     if saved : bool then
       ud' ← delete_save ud name;
       Ok (self, ud',
           [CallIsSaved name; CallDeleteSave name; Print ExerciseUnsaved], Continue)
     else Ok (self, ud, [CallIsSaved name; Print NotSaved], Continue)).
Proof.
  intros H Hm Hd Hn. unfold command.
  rewrite H, Hm, Hd, (truthy_named _ _ _ Hn). cbn.
  unfold dict_item. rewrite Hn. cbn. by destruct (is_saved ud name) as [[]|].
Qed.

(** [s] and [u] fall through to the last branch outside exercise mode and on
    an empty page. *)
Lemma command_save_rejected self (ud : U) user_input :
  lower user_input = "s" ∨ lower user_input = "u" →
  mode self ≠ "exercise" ∨ truthy (display_data self) = false →
  command float_repr self ud user_input
  = Ok (self, ud, [Print InvalidInput], Continue).
Proof.
  intros Hk Hg. unfold command.
  assert (Hb : String.eqb (mode self) "exercise" && truthy (display_data self)
               = false).
  { destruct Hg as [Hm%String.eqb_neq| ->]; [by rewrite Hm | apply andb_false_r]. }
  destruct Hk as [-> | ->]; cbn; rewrite Hb; reflexivity.
Qed.


(** Every way [command] can return. *)
Lemma command_inv self (ud : U) user_input self' ud' evs c :
  command float_repr self ud user_input = Ok (self', ud', evs, c) →
  (lower user_input = "n" ∧ current_page self < total_pages self ∧ ud' = ud
   ∧ display_page float_repr (set_current_page self (current_page self + 1))
     = Ok (self', evs))
  ∨ (lower user_input = "p" ∧ 1 < current_page self ∧ ud' = ud
     ∧ display_page float_repr (set_current_page self (current_page self - 1))
       = Ok (self', evs))
  ∨ (lower user_input = "e" ∧ (current_page self ∉ eaten_pages self)
     ∧ self' = set_eaten_pages self (eaten_pages self ++ [current_page self])
     ∧ (∃ check, track_consumed_calories ud (page_calories self)
                 = Ok (ud', check))
     ∧ ∃ dlg, evs = [CallTrackConsumedCalories (page_calories self);
                     Print (CaloriesAdded (page_calories self) dlg)])
  ∨ (self' = self ∧ List.filter is_ledger_call evs = []).
Proof.
  unfold command. cbv zeta.
  destruct (String.eqb (lower user_input) "n") eqn:Hn.
  { apply String.eqb_eq in Hn. destruct (current_page self <? total_pages self) eqn:Hlt.
    - intros H. apply bind_Ok_inv in H as ([s1 e1] & H1 & [= <- <- <- <-]).
      left. apply Z.ltb_lt in Hlt. done.
    - intros [= <- <- <- <-]. by do 3 right. }
  destruct (String.eqb (lower user_input) "p") eqn:Hp.
  { apply String.eqb_eq in Hp. destruct (1 <? current_page self) eqn:Hlt.
    - intros H. apply bind_Ok_inv in H as ([s1 e1] & H1 & [= <- <- <- <-]).
      right. left. apply Z.ltb_lt in Hlt. done.
    - intros [= <- <- <- <-]. by do 3 right. }
  destruct (String.eqb (lower user_input) "s" && String.eqb (mode self) "exercise"
            && truthy (display_data self)).
  { destruct (display_data self) as [d|]; [|discriminate].
    intros H. apply bind_Ok_inv in H as (name & _ & H).
    apply bind_Ok_inv in H as ([] & _ & H).
    - injection H as <- <- <- <-; by do 3 right.
    - apply bind_Ok_inv in H as (ud1 & _ & [= <- <- <- <-]). by do 3 right. }
  destruct (String.eqb (lower user_input) "u" && String.eqb (mode self) "exercise"
            && truthy (display_data self)).
  { destruct (display_data self) as [d|]; [|discriminate].
    intros H. apply bind_Ok_inv in H as (name & _ & H).
    apply bind_Ok_inv in H as ([] & _ & H); cbn [negb] in H.
    - apply bind_Ok_inv in H as (ud1 & _ & [= <- <- <- <-]). by do 3 right.
    - injection H as <- <- <- <-; by do 3 right. }
  destruct (String.eqb (lower user_input) "e" && String.eqb (mode self) "nutrition"
            && truthy (display_data self)) eqn:He.
  { apply andb_true_iff in He as [[He%String.eqb_eq _]%andb_true_iff _].
    destruct (bool_decide (current_page self ∈ eaten_pages self)) eqn:Hin; cbn [negb].
    - intros [= <- <- <- <-]. by do 3 right.
    - apply bool_decide_eq_false in Hin.
      intros H. apply bind_Ok_inv in H as ([ud1 check] & Ht & H).
      apply bind_Ok_inv in H as (dlg & _ & [= <- <- <- <-]).
      do 2 right. left. split; [done|]. split; [done|]. split; [done|].
      split; [by exists check | by exists dlg]. }
  destruct (String.eqb (lower user_input) "m"); intros [= <- <- <- <-];
    by do 3 right.
Qed.

Lemma advances_refl self evs :
  List.filter is_ledger_call evs = [] → advances self evs self.
Proof. intros He. unfold advances. rewrite He. repeat split; try done; lia. Qed.

Lemma advances_trans a e1 b e2 c :
  advances a e1 b → advances b e2 c → advances a (e1 ++ e2) c.
Proof.
  unfold advances. intros (Hs&Hd&Ht&Hm&Hr&He) (Hs'&Hd'&Ht'&Hm'&Hr'&He').
  rewrite Ht in Hr'.
  split; [congruence|]. split; [congruence|]. split; [congruence|].
  split; [congruence|]. split.
  - intros Ha. apply Hr', Hr, Ha.
  - intros Ha. destruct (He Ha) as [Hb Hl]. destruct (He' Hb) as [Hc Hl'].
    split; [done|]. rewrite List.filter_app, length_app. lia.
Qed.

Lemma display_page_advances self self' evs p :
  (1 ≤ current_page self ≤ Z.max 1 (total_pages self) →
   1 ≤ p ≤ Z.max 1 (total_pages self)) →
  display_page float_repr (set_current_page self p) = Ok (self', evs) →
  advances self evs self'.
Proof.
  intros Hp H. pose proof (display_page_events _ _ _ H) as He.
  apply ledger_call_is_write in He.
  apply display_page_inv in H as ((Hs&Hd&Ht&Hc&Hm&Hea) & _).
  cbn [set_current_page page_size data total_pages current_page mode eaten_pages]
    in *.
  unfold advances. rewrite He, <- Hs, <- Hd, <- Ht, <- Hm, <- Hea, <- Hc.
  do 4 (split; [done|]). split; [exact Hp|].
  intros Hn. split; [done | simpl; lia].
Qed.

Lemma command_advances self (ud : U) user_input self' ud' evs c :
  command float_repr self ud user_input = Ok (self', ud', evs, c) →
  advances self evs self'.
Proof.
  intros H. apply command_inv in H
    as [(_&Hlt&_&H) | [(_&Hlt&_&H) | [(_&Hin&->&_&dlg&->) | [-> He]]]].
  - eapply display_page_advances; [|exact H]. lia.
  - eapply display_page_advances; [|exact H]. lia.
  - unfold advances. cbn. do 4 (split; [done|]). split; [done|].
    intros Hn. split.
    + apply NoDup_app. split; [done|]. split; [|apply NoDup_singleton].
      intros x Hx ->%list_elem_of_singleton. done.
    + rewrite length_app. simpl. lia.
  - by apply advances_refl.
Qed.

Lemma iteration_advances self (ud : U) user_input self' ud' evs c :
  iteration float_repr self ud user_input = Ok (self', ud', evs, c) →
  advances self evs self'.
Proof.
  unfold iteration. intros H. apply bind_Ok_inv in H as (e0 & H0 & H).
  apply bind_Ok_inv in H as ([[[s1 u1] e1] c1] & H1 & [= <- <- <- <-]).
  eapply advances_trans; [|by eapply command_advances].
  apply advances_refl, ledger_call_is_write. by eapply input_text_events.
Qed.

Lemma loop_advances inputs : ∀ self (ud : U) self' ud' evs c,
  loop float_repr self ud inputs = Ok (self', ud', evs, c) →
  advances self evs self'.
Proof.
  induction inputs as [|i rest IH]; intros self ud self' ud' evs c H; simpl in H.
  - apply bind_Ok_inv in H as (e0 & H0 & [= <- <- <- <-]).
    apply advances_refl, ledger_call_is_write. by eapply input_text_events.
  - apply bind_Ok_inv in H as ([[[s1 u1] e1] c1] & H1 & H).
    apply iteration_advances in H1. destruct c1.
    + apply bind_Ok_inv in H as ([[[s2 u2] e2] c2] & H2 & [= <- <- <- <-]).
      eapply advances_trans; [exact H1 | by eapply IH].
    + by injection H as <- <- <- <-.
Qed.

End SessionFacts.

(** ** Page counts and slices *)

Lemma ceil_div_bounds a b :
  0 < b → (ceil_div a b - 1) * b < a ≤ ceil_div a b * b.
Proof.
  intros Hb. unfold ceil_div.
  pose proof (Z.mul_div_le (- a) b Hb).
  pose proof (Z.mul_succ_div_gt (- a) b Hb). lia.
Qed.

Lemma ceil_div_unique a b n : 0 < b → (n - 1) * b < a ≤ n * b → ceil_div a b = n.
Proof. intros Hb Hn. pose proof (ceil_div_bounds a b Hb). nia. Qed.

(** Line 559 computes the ceiling of [len / size]. *)
Lemma count_pages_ceil len size :
  1 ≤ size → count_pages len size = Ok (ceil_div len size).
Proof.
  intros Hs. unfold count_pages, int_floordiv, int_mod.
  destruct (Z.eqb_spec size 0) as [|_]; [lia|]. rewrite !bind_Ok. f_equal.
  symmetry. apply ceil_div_unique; [lia|].
  pose proof (Z.div_mod len size ltac:(lia)).
  pose proof (Z.mod_pos_bound len size ltac:(lia)).
  destruct (Z.ltb_spec 0 (len mod size)); nia.
Qed.

Lemma py_slice_length {A} (l : list A) start stop :
  0 ≤ start ≤ stop →
  Z.of_nat (length (py_slice l start stop))
  = Z.min stop (Z.of_nat (length l)) - Z.min start (Z.of_nat (length l)).
Proof.
  intros H. unfold py_slice, slice_bound.
  destruct (Z.ltb_spec start 0); [lia|]. destruct (Z.ltb_spec stop 0); [lia|].
  rewrite length_take, length_drop. lia.
Qed.

Lemma page_slice_length self p :
  1 ≤ p → 1 ≤ page_size self →
  Z.of_nat (length (page_slice self p))
  = Z.min (p * page_size self) (Z.of_nat (length (data self)))
    - Z.min ((p - 1) * page_size self) (Z.of_nat (length (data self))).
Proof.
  intros Hp Hs. unfold page_slice. rewrite py_slice_length by nia.
  f_equal. f_equal. lia.
Qed.

Section SessionClaims.

Context (float_repr : float → string) {U : Type} `{!UserDataOps U}.

(** The state in which the loop is entered. *)
Lemma paginate_start_inv size rs md self evs :
  1 ≤ size →
  paginate_start float_repr size rs md = Ok (self, evs) →
  page_size self = size ∧ data self = rs
  ∧ total_pages self = ceil_div (Z.of_nat (length rs)) size
  ∧ current_page self = 1 ∧ mode self = md
  ∧ eaten_pages self = [] ∧ List.filter is_write evs = [].
Proof.
  intros Hs H. unfold paginate_start in H.
  rewrite (count_pages_ceil _ _ Hs), bind_Ok in H.
  apply bind_Ok_inv in H as ([s1 e1] & H1 & [= <- <-]).
  pose proof (display_page_events _ _ _ _ H1) as He.
  apply display_page_inv in H1 as ((Hps&Hd&Ht&Hc&Hm&_) & _).
  cbn in *. by repeat split.
Qed.

(** C1 (as amended). For every result set of length [L] and every page size
    of at least 1 (so for 1, 2 and 3), [paginate] computes
    [total_pages = ceil(L / page_size)]. This is [max(1, ceil(L / page_size))]
    when [L > 0], and 0 when the result set is empty. For [L > 0] the slice of
    the last page holds [L - (total_pages - 1) * page_size] records; for
    [L = 0] the slice shown, that of page 1, is empty. *)
Theorem total_pages_ceiling (size : Z) (rs : list record) (md : string) :
  1 ≤ size →
  count_pages (Z.of_nat (length rs)) size = Ok (ceil_div (Z.of_nat (length rs)) size)
  ∧ (rs ≠ [] →
     ceil_div (Z.of_nat (length rs)) size
     = Z.max 1 (ceil_div (Z.of_nat (length rs)) size))
  ∧ (rs = [] → ceil_div (Z.of_nat (length rs)) size = 0)
  ∧ ∀ self evs,
      paginate_start float_repr size rs md = Ok (self, evs) →
      total_pages self = ceil_div (Z.of_nat (length rs)) size
      ∧ (rs ≠ [] →
         Z.of_nat (length (page_slice self (total_pages self)))
         = Z.of_nat (length rs) - (total_pages self - 1) * size)
      ∧ (rs = [] → page_slice self (current_page self) = []).
Proof.
  intros Hs.
  pose proof (ceil_div_bounds (Z.of_nat (length rs)) size ltac:(lia)) as Hb.
  assert (Hpos : rs ≠ [] → 0 < Z.of_nat (length rs)).
  { destruct rs; [done | simpl; lia]. }
  split; [by apply count_pages_ceil|]. split; [|split].
  - intros Hne%Hpos. nia.
  - intros ->. apply ceil_div_unique; simpl; lia.
  - intros self evs H.
    apply paginate_start_inv in H as (Hps & Hd & Ht & Hc & _); [|done].
    split; [done|]. split.
    + intros Hne%Hpos. rewrite page_slice_length; rewrite ?Hps, ?Hd, ?Ht; nia.
    + intros ->. unfold page_slice, py_slice. rewrite Hd.
      by rewrite drop_nil, take_nil.
Qed.

(** C6 (as amended). At every point of a pagination session [current_page]
    lies between 1 and [max(1, total_pages)], and between 1 and [total_pages]
    whenever the result set is not empty. It starts at 1; a command changes it
    only by [n], which adds one and only when [current_page < total_pages], or
    by [p], which subtracts one and only when [current_page > 1]; [n] and [p]
    at a bound return normally with a message and the state as it was. *)
Theorem current_page_in_range (size : Z) (ud : U) (rs : list record) (md : string) (inputs : list string) (self : Pagination) (ud' : U) (evs : list event) (c : control) :
  1 ≤ size →
  paginate float_repr size ud rs md inputs = Ok (self, ud', evs, c) →
  1 ≤ current_page self ≤ Z.max 1 (total_pages self)
  ∧ (rs ≠ [] → 1 ≤ current_page self ≤ total_pages self)
  ∧ (∀ s e, paginate_start float_repr size rs md = Ok (s, e) → current_page s = 1)
  ∧ (∀ s (u : U) i s' u' e k,
       command float_repr s u i = Ok (s', u', e, k) →
       (current_page s' = current_page s + 1 ∧ lower i = "n"
        ∧ current_page s < total_pages s)
       ∨ (current_page s' = current_page s - 1 ∧ lower i = "p"
          ∧ 1 < current_page s)
       ∨ current_page s' = current_page s)
  ∧ (∀ s (u : U) i, lower i = "n" → ¬ current_page s < total_pages s →
       command float_repr s u i = Ok (s, u, [Print NoNextPage], Continue))
  ∧ (∀ s (u : U) i, lower i = "p" → ¬ 1 < current_page s →
       command float_repr s u i = Ok (s, u, [Print NoPreviousPage], Continue)).
Proof.
  intros Hs H. unfold paginate in H.
  apply bind_Ok_inv in H as ([s0 e0] & H0 & H).
  apply bind_Ok_inv in H as ([[[s1 u1] e1] c1] & H1 & [= <- <- <- <-]).
  apply paginate_start_inv in H0 as (Hps & Hd & Ht & Hc & _); [|done].
  apply loop_advances in H1 as (_ & _ & Ht1 & _ & Hr & _).
  assert (Hrange : 1 ≤ current_page s1 ≤ Z.max 1 (total_pages s1)).
  { rewrite Ht1. apply Hr. lia. }
  split; [exact Hrange|]. split; [|split; [|split; [|split]]].
  - intros Hne. assert (0 < Z.of_nat (length rs)) by (destruct rs; [done|simpl; lia]).
    pose proof (ceil_div_bounds (Z.of_nat (length rs)) size ltac:(lia)).
    rewrite Ht1, Ht in *. nia.
  - intros s e Hst. by apply paginate_start_inv in Hst as (_&_&_&?&_).
  - intros s u i s' u' e k Hc'.
    apply command_inv in Hc'
      as [(Hn&Hlt&_&Hp) | [(Hn&Hlt&_&Hp) | [(_&_&->&_) | [-> _]]]].
    + left. apply display_page_inv in Hp as ((_&_&_&Hcur&_) & _). cbn in Hcur.
      by rewrite <- Hcur.
    + right. left. apply display_page_inv in Hp as ((_&_&_&Hcur&_) & _).
      cbn in Hcur. by rewrite <- Hcur.
    + by do 2 right.
    + by do 2 right.
  - intros s u i Hn Hlt. rewrite command_next by done.
    by destruct (Z.ltb_spec (current_page s) (total_pages s)).
  - intros s u i Hp Hlt. rewrite command_previous by done.
    by destruct (Z.ltb_spec 1 (current_page s)).
Qed.

(** C7. Navigation at the bounds changes nothing: [n] entered when
    [current_page = total_pages] reports that there is no next page and
    returns the object and the store as they were, and so does [p] entered when
    [current_page = 1] for the previous page; the whole turn of the loop adds
    only the prompt printed before the command is read. *)
Theorem navigation_at_bounds (self : Pagination) (ud : U) (user_input : string) :
  (lower user_input = "n" → current_page self = total_pages self →
     command float_repr self ud user_input
     = Ok (self, ud, [Print NoNextPage], Continue)
     ∧ iteration float_repr self ud user_input
       = (evs ← input_text self ud;
          Ok (self, ud, evs ++ [Print NoNextPage], Continue)))
  ∧ (lower user_input = "p" → current_page self = 1 →
     command float_repr self ud user_input
     = Ok (self, ud, [Print NoPreviousPage], Continue)
     ∧ iteration float_repr self ud user_input
       = (evs ← input_text self ud;
          Ok (self, ud, evs ++ [Print NoPreviousPage], Continue))).
Proof.
  split.
  - intros Hn Hc.
    assert (Hcmd : command float_repr self ud user_input
                   = Ok (self, ud, [Print NoNextPage], Continue)).
    { rewrite command_next by done. rewrite Hc.
      by rewrite Z.ltb_irrefl. }
    split; [exact Hcmd|]. unfold iteration. rewrite Hcmd.
    by destruct (input_text self ud).
  - intros Hp Hc.
    assert (Hcmd : command float_repr self ud user_input
                   = Ok (self, ud, [Print NoPreviousPage], Continue)).
    { rewrite command_previous by done. by rewrite Hc. }
    split; [exact Hcmd|]. unfold iteration. rewrite Hcmd.
    by destruct (input_text self ud).
Qed.


(** C8. [s] in exercise mode on a non-empty page writes nothing and reports
    "already saved" when [is_saved] holds for the name of the record targeted,
    and otherwise calls [add_save] exactly once; [u] reports "not saved" and
    deletes nothing when [is_saved] does not hold, and otherwise calls
    [delete_save] exactly once. An exception raised by one of these store calls
    is the command's. Outside exercise mode, or on an empty page, [s] and [u]
    change neither the object nor the store. *)
Theorem save_unsave_guard (self : Pagination) (ud : U) (user_input : string) :
  (∀ d name,
     mode self = "exercise" → display_data self = Some d →
     d !! "name" = Some name →
     (lower user_input = "s" → is_saved ud name = Ok true →
        command float_repr self ud user_input
        = Ok (self, ud, [CallIsSaved name; Print AlreadySaved], Continue))
     ∧ (lower user_input = "s" → is_saved ud name = Ok false →
        command float_repr self ud user_input
        = (ud' ← add_save ud name d;
           Ok (self, ud',
               [CallIsSaved name; CallAddSave name d; Print ExerciseSaved],
               Continue)))
     ∧ (lower user_input = "u" → is_saved ud name = Ok false →
        command float_repr self ud user_input
        = Ok (self, ud, [CallIsSaved name; Print NotSaved], Continue))
     ∧ (lower user_input = "u" → is_saved ud name = Ok true →
        command float_repr self ud user_input
        = (ud' ← delete_save ud name;
           Ok (self, ud',
               [CallIsSaved name; CallDeleteSave name; Print ExerciseUnsaved],
               Continue)))
     ∧ (lower user_input = "s" ∨ lower user_input = "u" →
        ∀ e, is_saved ud name = Raise e →
             command float_repr self ud user_input = Raise e))
  ∧ (lower user_input = "s" ∨ lower user_input = "u" →
     mode self ≠ "exercise" ∨ truthy (display_data self) = false →
     command float_repr self ud user_input
     = Ok (self, ud, [Print InvalidInput], Continue)).
Proof.
  split; [|apply command_save_rejected].
  intros d name Hm Hd Hn. split; [|split; [|split; [|split]]].
  - intros Hk Hs. by rewrite (command_save _ _ _ _ d name), Hs.
  - intros Hk Hs. by rewrite (command_save _ _ _ _ d name), Hs.
  - intros Hk Hs. by rewrite (command_unsave _ _ _ _ d name), Hs.
  - intros Hk Hs. by rewrite (command_unsave _ _ _ _ d name), Hs.
  - intros [Hk|Hk] e Hs.
    + by rewrite (command_save _ _ _ _ d name), Hs.
    + by rewrite (command_unsave _ _ _ _ d name), Hs.
Qed.

(** C10. After [display_page] has rendered a page, [display_data] is the last
    record of the page slice (and [False] on an empty page). In exercise mode
    on a non-empty page that record has a name, and the [is_saved] query of the
    prompt, [s] and [u] all use that name and persist that record alone,
    whatever other records the page shows. *)
Theorem actions_target_last_record (self self' : Pagination) (evs : list event) (ud : U) (user_input : string) :
  display_page float_repr self = Ok (self', evs) →
  display_data self' = last (page_slice self (current_page self))
  ∧ (mode self = "exercise" → page_slice self (current_page self) ≠ [] →
     ∃ d name,
       last (page_slice self (current_page self)) = Some d
       ∧ display_data self' = Some d ∧ d !! "name" = Some name
       ∧ save_unsave self' ud
         = (saved ← is_saved ud name;
            Ok (if saved : bool then "u : unsave,   " else "s : save,     ",
                [CallIsSaved name]))
       ∧ (lower user_input = "s" →
          command float_repr self' ud user_input
          = (saved ← is_saved ud name;
             if saved : bool then
               Ok (self', ud, [CallIsSaved name; Print AlreadySaved], Continue)
             else
               ud' ← add_save ud name d;
               Ok (self', ud',
                   [CallIsSaved name; CallAddSave name d; Print ExerciseSaved],
                   Continue)))
       ∧ (lower user_input = "u" →
          command float_repr self' ud user_input
          = (saved ← is_saved ud name;
             if saved : bool then
               ud' ← delete_save ud name;
               Ok (self', ud',
                   [CallIsSaved name; CallDeleteSave name; Print ExerciseUnsaved],
                   Continue)
             else Ok (self', ud, [CallIsSaved name; Print NotSaved], Continue)))).
Proof.
  intros H. apply display_page_inv in H as (Hf & Hd & _ & Hcons).
  split; [exact Hd|]. intros Hm Hne. destruct (Hcons Hne) as [evs' Hr].
  apply display_records_exercise in Hr as [_ Hnames]; [|exact Hm].
  destruct (last (page_slice self (current_page self))) as [d|] eqn:Hl;
    [|by apply last_None in Hl].
  assert (Hin : d ∈ page_slice self (current_page self)).
  { apply last_Some in Hl as [l' ->]. apply elem_of_app. right.
    by apply list_elem_of_singleton. }
  destruct (Hnames d Hin) as [name Hn]. exists d, name.
  assert (Hm' : mode self' = "exercise") by (destruct Hf as (_&_&_&_&<-&_); done).
  do 3 (split; [done|]). split; [|split].
  - unfold save_unsave. rewrite Hm', Hd, (truthy_named _ _ _ Hn). cbn.
    unfold display_item, dict_item. by rewrite Hd, Hn.
  - intros Hk. by apply (command_save _ _ _ _ d name).
  - intros Hk. by apply (command_unsave _ _ _ _ d name).
Qed.

End SessionClaims.

(** * Sample sessions *)

(** C9. Page aggregation is to substitute defaults for malformed or missing
    fields and never end the session. The code does not behave so: absent
    fields are replaced by their defaults while a record is accumulated, but a
    serving size of 0 raises [ZeroDivisionError] at [100 / serving_size], a
    serving size that is a string raises [TypeError], and a record lacking a
    displayed field, whose totals were accumulated with the default, raises
    [KeyError] in [display_nutrition]. Nothing in [paginate] handles these, so
    each of them ends the session. *)
Theorem malformed_record_ends_session :
  paginate sample_repr 2 empty_store [food "A" 100 0 0 0 0] "nutrition" []
  = Raise ZeroDivisionError
  ∧ paginate sample_repr 2 empty_store
      [<["serving_size_g" := PStr "100"]> (food "A" 100 100 0 0 0)] "nutrition" []
    = Raise TypeError
  ∧ (∃ s,
       accumulate_nutrition sample_repr
         (set_display_data (reset_page (sample_session 2 [] "nutrition"))
            (Some (delete "serving_size_g" (food "A" 100 100 0 0 0))))
         (delete "serving_size_g" (food "A" 100 100 0 0 0)) = Ok s
       ∧ page_calories s = NFloat 100)
  ∧ paginate sample_repr 2 empty_store
      [delete "serving_size_g" (food "A" 100 100 0 0 0)] "nutrition" []
    = Raise (KeyError "serving_size_g").
Proof.
  split; [by vm_compute|]. split; [by vm_compute|]. split; [|by vm_compute].
  eexists. split; [vm_compute; reflexivity | by vm_compute].
Qed.

(** C5. Each accumulated field is scaled by [100 / serving_size_g] before it
    is added, and the page of the two records A (calories 400, serving size
    50) and B (calories 200, serving size 100) with page size 2 is to give
    1000 calories, [serving_size_check] false, [mindful_food] "A" and the
    high-calorie advice with the warning naming "A". The code does not get
    there on the records as the example writes them, with these three fields
    alone: record A is accumulated (calories 800.0, flag false, "A") and then
    [display_nutrition] (line 483) raises [KeyError] at [fat_total_g], which
    nothing handles, so the session ends before record B is read. On records
    that carry all twelve displayed fields the page gives the values of the
    example. *)
Theorem worked_example_ends_session :
  paginate sample_repr 2 empty_store
    [bare_food "A" 400 50; bare_food "B" 200 100] "nutrition" []
  = Raise (KeyError "fat_total_g")
  ∧ display_page sample_repr
      (sample_session 2 [bare_food "A" 400 50; bare_food "B" 200 100] "nutrition")
    = Raise (KeyError "fat_total_g")
  ∧ (∃ s,
       accumulate_nutrition sample_repr
         (set_display_data
            (reset_page
               (sample_session 2 [bare_food "A" 400 50; bare_food "B" 200 100]
                  "nutrition"))
            (Some (bare_food "A" 400 50)))
         (bare_food "A" 400 50) = Ok s
       ∧ page_calories s = NFloat 800
       ∧ serving_size_check s = false
       ∧ mindful_food s = "A"
       ∧ display_nutrition s = Raise (KeyError "fat_total_g"))
  ∧ (∃ s evs,
       display_page sample_repr
         (sample_session 2 [food "A" 400 50 0 0 0; food "B" 200 100 0 0 0]
            "nutrition") = Ok (s, evs)
       ∧ page_calories s = NFloat 1000
       ∧ serving_size_check s = false
       ∧ mindful_food s = "A"
       ∧ nutritional_advice s
         = high_calorie_message +:+ nl +:+ "Be mindful of A. Small amount occasionally can be okay, but try to focus on a balanced diet overall.").
Proof.
  split; [by vm_compute|]. split; [by vm_compute|]. split.
  - eexists. split; [vm_compute; reflexivity|]. by vm_compute.
  - eexists _, _. split; [vm_compute; reflexivity|]. by vm_compute.
Qed.

(** C1, counterexample: on an empty result set [paginate] computes 0 pages,
    not [max(1, ceil(0 / 1)) = 1]. *)
Lemma empty_result_zero_pages :
  ∃ self evs,
    paginate_start sample_repr 1 [] "exercise" = Ok (self, evs)
    ∧ total_pages self = 0
    ∧ total_pages self ≠ Z.max 1 (ceil_div 0 1).
Proof. eexists _, _. split; [vm_compute; reflexivity|]. by vm_compute. Qed.

(** C2, counterexample: a flagged record whose name is the empty string
    leaves [serving_size_check] false and [mindful_food] empty. *)
Lemma empty_name_flag_without_text :
  ∃ self evs,
    paginate_start sample_repr 1 [food "" 400 50 0 0 0] "nutrition"
    = Ok (self, evs)
    ∧ ¬ (serving_size_check self = false ↔ mindful_food self ≠ "").
Proof.
  eexists _, _. split; [vm_compute; reflexivity|].
  intros [H _]. by apply H.
Qed.

(** C6, counterexample: on an empty result set the session is entered with
    [current_page = 1] and [total_pages = 0]. *)
Lemma empty_result_page_out_of_range :
  ∃ self ud evs c,
    paginate sample_repr 1 empty_store [] "exercise" [] = Ok (self, ud, evs, c)
    ∧ ¬ (1 ≤ current_page self ≤ total_pages self).
Proof.
  eexists _, _, _, _. split; [vm_compute; reflexivity|].
  vm_compute. intros [_ H]. by apply H.
Qed.


(** Seven exercises, three to a page: three pages, the last one holding one
    record. *)
Lemma total_pages_ceiling_witness :
  1 ≤ 3
  ∧ count_pages 7 3 = Ok 3
  ∧ ∃ self evs,
      paginate_start sample_repr 3 seven_exercises "exercise" = Ok (self, evs)
      ∧ total_pages self = 3
      ∧ Z.of_nat (length (page_slice self (total_pages self))) = 7 - (3 - 1) * 3.
Proof.
  assert (Hs : 1 ≤ 3) by lia.
  destruct (total_pages_ceiling sample_repr 3 seven_exercises "exercise" Hs)
    as (Hc & _ & _ & Hall).
  split; [exact Hs|]. split; [exact Hc|].
  destruct (paginate_start sample_repr 3 seven_exercises "exercise")
    as [[self evs]|e] eqn:Hp; [|vm_compute in Hp; discriminate].
  exists self, evs. split; [reflexivity|].
  destruct (Hall self evs eq_refl) as (Ht & Hl & _).
  split; [exact Ht|]. rewrite Hl by discriminate. rewrite Ht. reflexivity.
Defined.

(** A page with two flagged records, A and C, followed by an unflagged one. *)
Lemma mindful_scan_fold_witness :
  ∃ self evs,
    display_page sample_repr (sample_session 3 three_foods "nutrition")
    = Ok (self, evs)
    ∧ (serving_size_check self, mindful_food self) = (false, "A and C")
    ∧ (serving_size_check self = false ↔ mindful_food self ≠ "").
Proof.
  destruct (display_page sample_repr (sample_session 3 three_foods "nutrition"))
    as [[self evs]|e] eqn:Hp; [|vm_compute in Hp; discriminate].
  exists self, evs. split; [reflexivity|].
  destruct (mindful_scan_fold sample_repr
              (sample_session 3 three_foods "nutrition") self evs eq_refl Hp)
    as (Hf & _ & _ & Hn).
  split; [rewrite Hf; vm_compute; reflexivity|].
  apply Hn. intros d Hd _.
  change (page_slice _ _) with three_foods in Hd.
  unfold three_foods in Hd.
  repeat (apply elem_of_cons in Hd as [->|Hd]; [by vm_compute|]).
  by apply elem_of_nil in Hd.
Defined.

(** One aggregate for each row of the table. *)
Lemma advice_threshold_table_witness :
  nutritional_advice (with_values true "" (NFloat 50) (NInt 0) (NInt 0) (NInt 0))
  = low_calorie_message
  ∧ nutritional_advice
      (with_values true "" (NFloat 200) (NFloat 15) (NFloat 10) (NFloat 5))
    = balanced_message
  ∧ nutritional_advice
      (with_values false "A" (NFloat 200) (NFloat 25) (NFloat 2) (NFloat 12))
    = optimizing_message +:+ saturated_fats_clause +:+ protein_clause
      +:+ sugars_clause +:+ nl
      +:+ "Be mindful of A. Small amount occasionally can be okay, but try to focus on a balanced diet overall."
  ∧ nutritional_advice
      (with_values false "A" (NFloat 1000) (NFloat 0) (NFloat 0) (NFloat 0))
    = high_calorie_message +:+ nl
      +:+ "Be mindful of A. Small amount occasionally can be okay, but try to focus on a balanced diet overall.".
Proof.
  split; [|split; [|split]].
  - apply (advice_threshold_table
             (with_values true "" (NFloat 50) (NInt 0) (NInt 0) (NInt 0))).
    vm_compute. reflexivity.
  - apply (advice_threshold_table
             (with_values true "" (NFloat 200) (NFloat 15) (NFloat 10) (NFloat 5)));
      vm_compute; reflexivity.
  - destruct (advice_threshold_table
             (with_values false "A" (NFloat 200) (NFloat 25) (NFloat 2) (NFloat 12)))
      as (_ & _ & H & _).
    rewrite H by (vm_compute; reflexivity). vm_compute. reflexivity.
  - destruct (advice_threshold_table
             (with_values false "A" (NFloat 1000) (NFloat 0) (NFloat 0) (NFloat 0)))
      as (_ & _ & _ & H).
    rewrite H by (vm_compute; reflexivity). vm_compute. reflexivity.
Defined.


(** Seven exercises, three to a page, after [n], [n], [n], [p]: page 2 of 3. *)
Lemma current_page_in_range_witness :
  ∃ self ud evs c,
    paginate sample_repr 3 empty_store seven_exercises "exercise"
      ["n"; "N"; "n"; "p"] = Ok (self, ud, evs, c)
    ∧ current_page self = 2
    ∧ 1 ≤ current_page self ≤ total_pages self.
Proof.
  destruct (paginate sample_repr 3 empty_store seven_exercises "exercise"
              ["n"; "N"; "n"; "p"])
    as [[[[self ud] evs] c]|e] eqn:Hp; [|vm_compute in Hp; discriminate].
  exists self, ud, evs, c. split; [reflexivity|].
  assert (Hs : 1 ≤ 3) by lia.
  destruct (current_page_in_range sample_repr 3 empty_store seven_exercises
              "exercise" ["n"; "N"; "n"; "p"] self ud evs c Hs Hp)
    as (_ & Hr & _).
  split; [|apply Hr; discriminate].
  vm_compute in Hp. by injection Hp as <- _ _ _.
Defined.

(** A session of a single page: both [n] and [p] are at a bound. *)
Lemma navigation_at_bounds_witness :
  command sample_repr (shown 7 seven_exercises "exercise") empty_store "N"
  = Ok (shown 7 seven_exercises "exercise", empty_store, [Print NoNextPage],
        Continue)
  ∧ command sample_repr (shown 7 seven_exercises "exercise") empty_store "p"
    = Ok (shown 7 seven_exercises "exercise", empty_store,
          [Print NoPreviousPage], Continue).
Proof.
  split.
  - apply (navigation_at_bounds sample_repr (shown 7 seven_exercises "exercise")
             empty_store "N"); vm_compute; reflexivity.
  - apply (navigation_at_bounds sample_repr (shown 7 seven_exercises "exercise")
             empty_store "p"); vm_compute; reflexivity.
Defined.

(** [s] on the first page of seven exercises saves "Deadlift", the record
    [display_data] holds; in a nutrition session [s] is rejected. *)
Lemma save_unsave_guard_witness :
  command sample_repr (shown 3 seven_exercises "exercise") empty_store "s"
  = Ok (shown 3 seven_exercises "exercise",
        mkMemStore (<["Deadlift" := exercise "Deadlift"]> ∅) (Some (NInt 1800)) 2000,
        [CallIsSaved (PStr "Deadlift");
         CallAddSave (PStr "Deadlift") (exercise "Deadlift");
         Print ExerciseSaved], Continue)
  ∧ command sample_repr (shown 3 three_foods "nutrition") empty_store "s"
    = Ok (shown 3 three_foods "nutrition", empty_store, [Print InvalidInput],
          Continue).
Proof.
  split.
  - destruct (save_unsave_guard sample_repr (shown 3 seven_exercises "exercise")
               empty_store "s") as [H _].
    destruct (H (exercise "Deadlift") (PStr "Deadlift")) as (_ & Hs & _);
      [vm_compute; reflexivity ..|].
    rewrite Hs by reflexivity. reflexivity.
  - apply (save_unsave_guard sample_repr (shown 3 three_foods "nutrition")
             empty_store "s"); [by left | left; by vm_compute].
Defined.

(** The first page of seven exercises shows Squat, Lunge and Deadlift;
    [display_data] is Deadlift, and that is the record [s] saves. *)
Lemma actions_target_last_record_witness :
  ∃ self evs,
    display_page sample_repr (sample_session 3 seven_exercises "exercise")
    = Ok (self, evs)
    ∧ display_data self = Some (exercise "Deadlift")
    ∧ command sample_repr self empty_store "s"
      = Ok (self,
            mkMemStore (<["Deadlift" := exercise "Deadlift"]> ∅)
              (Some (NInt 1800)) 2000,
            [CallIsSaved (PStr "Deadlift");
             CallAddSave (PStr "Deadlift") (exercise "Deadlift");
             Print ExerciseSaved], Continue).
Proof.
  destruct (display_page sample_repr (sample_session 3 seven_exercises "exercise"))
    as [[self evs]|e] eqn:Hp; [|vm_compute in Hp; discriminate].
  exists self, evs. split; [reflexivity|].
  destruct (actions_target_last_record sample_repr
              (sample_session 3 seven_exercises "exercise") self evs
              empty_store "s" Hp) as (Hd & Hex).
  destruct (Hex eq_refl ltac:(discriminate)) as (d & name & Hl & _ & Hn & _ & Hs & _).
  assert (Some d = Some (exercise "Deadlift")) as [= ->]
    by (rewrite <- Hl; vm_compute; reflexivity).
  assert (Some name = Some (PStr "Deadlift")) as [= ->]
    by (rewrite <- Hn; vm_compute; reflexivity).
  split; [rewrite Hd; exact Hl|]. rewrite (Hs eq_refl). reflexivity.
Defined.

(** * Further properties of the engine *)

(** ** Pages partition the result set *)

(** A slice from a non-negative start is a [take] of a [drop]. *)
Lemma py_slice_take_drop {A} (l : list A) (start n : Z) :
  0 ≤ start → 0 ≤ n →
  py_slice l start (start + n) = take (Z.to_nat n) (drop (Z.to_nat start) l).
Proof.
  intros Hs Hn. unfold py_slice, slice_bound.
  destruct (Z.ltb_spec start 0); [lia|].
  destruct (Z.ltb_spec (start + n) 0); [lia|].
  destruct (Z.le_gt_cases start (Z.of_nat (length l))) as [Hle|Hgt].
  - rewrite (Z.min_l start) by done.
    destruct (Z.le_gt_cases (start + n) (Z.of_nat (length l))) as [Hle'|Hgt'].
    + rewrite Z.min_l by done. f_equal. lia.
    + rewrite Z.min_r by lia.
      rewrite !take_ge; [done| |]; rewrite length_drop; lia.
  - rewrite !Z.min_r by lia. rewrite Z.sub_diag.
    rewrite (drop_ge l (Z.to_nat start)) by lia. by rewrite take_nil.
Qed.

Lemma py_slice_subseteq {A} (l : list A) (start stop : Z) :
  py_slice l start stop ⊆ l.
Proof.
  unfold py_slice. intros x Hx.
  apply elem_of_take in Hx as (i & Hx & _).
  rewrite lookup_drop in Hx. by eapply list_elem_of_lookup_2.
Qed.

(** Consecutive chunks of [n] elements, [k] of them, give the list back once
    they reach its end. *)
Lemma concat_chunks {A} (n : nat) : ∀ (k : nat) (l : list A),
  (0 < n)%nat → (length l ≤ k * n)%nat →
  concat ((fun i => take n (drop (i * n) l)) <$> seq 0 k) = l.
Proof.
  induction k as [|k IH]; intros l Hn Hl.
  - destruct l; [done | simpl in Hl; lia].
  - cbn [seq fmap list_fmap concat]. change (0 * n)%nat with 0%nat.
    rewrite drop_0.
    transitivity (take n l ++ drop n l); [|apply take_drop]. f_equal.
    rewrite <- seq_shift, <- list_fmap_compose.
    rewrite <- (IH (drop n l)) at 1; [|done|rewrite length_drop; lia].
    f_equal. apply list_fmap_ext. intros _ i _. simpl.
    rewrite drop_drop. do 2 f_equal; lia.
Qed.

Section PagePartition.

Variable float_repr : float → string.

Lemma page_slice_chunk self (i : nat) :
  1 ≤ page_size self →
  page_slice self (Z.of_nat (S i))
  = take (Z.to_nat (page_size self)) (drop (i * Z.to_nat (page_size self)) (data self)).
Proof.
  intros Hs. unfold page_slice. rewrite py_slice_take_drop by nia.
  do 2 f_equal. nia.
Qed.

(** X1. The pages partition the result set: the slices of pages
    [1 .. total_pages], one after the other, are the result set itself, so
    every record is shown on exactly one page; each of these pages is
    non-empty and holds at most [page_size] records, every page before the
    last holds exactly [page_size], and any page beyond the last is empty. *)
Theorem pages_partition (size : Z) (rs : list record) (md : string) (self : Pagination) (evs : list event) :
  1 ≤ size →
  paginate_start float_repr size rs md = Ok (self, evs) →
  concat (page_slice self <$> page_numbers (total_pages self)) = rs
  ∧ (∀ p, 1 ≤ p ≤ total_pages self →
       page_slice self p ≠ [] ∧ Z.of_nat (length (page_slice self p)) ≤ size)
  ∧ (∀ p, 1 ≤ p < total_pages self →
       Z.of_nat (length (page_slice self p)) = size)
  ∧ (∀ p, total_pages self < p → 1 ≤ p → page_slice self p = []).
Proof.
  intros Hs H. apply paginate_start_inv in H as (Hps & Hd & Ht & _); [|done].
  pose proof (ceil_div_bounds (Z.of_nat (length rs)) size ltac:(lia)) as Hb.
  rewrite <- Ht in Hb.
  assert (Hlen : ∀ p, 1 ≤ p →
            Z.of_nat (length (page_slice self p))
            = Z.min (p * size) (Z.of_nat (length rs))
              - Z.min ((p - 1) * size) (Z.of_nat (length rs))).
  { intros p Hp. rewrite page_slice_length by lia. by rewrite Hps, Hd. }
  split; [|split; [|split]].
  - unfold page_numbers. rewrite <- list_fmap_compose.
    rewrite <- seq_shift, <- list_fmap_compose.
    etransitivity;
      [|apply (concat_chunks (Z.to_nat size) (Z.to_nat (total_pages self)) rs);
        [lia|nia]].
    f_equal. apply list_fmap_ext. intros _ i _. simpl.
    rewrite page_slice_chunk by lia. by rewrite Hps, Hd.
  - intros p Hp. specialize (Hlen p ltac:(lia)). split; [|nia].
    intros Hnil. rewrite Hnil in Hlen. simpl in Hlen. nia.
  - intros p Hp. rewrite Hlen by lia. nia.
  - intros p Hp Hp1. specialize (Hlen p Hp1).
    destruct (page_slice self p); [done|]. simpl in Hlen. nia.
Qed.

End PagePartition.

(** ** Navigation and the prompt *)

Lemma save_call_is_write evs :
  List.filter is_write evs = [] → List.filter is_save_call evs = [].
Proof.
  induction evs as [|e evs IH]; [done|]. simpl.
  destruct e; simpl; try done; auto.
Qed.

Section Navigation.

Context (float_repr : float → string) {U : Type} `{!UserDataOps U}.

(** [display_page] reads nothing of what it recomputes: two objects that agree
    on the session attributes render alike. *)
Lemma display_page_same_session a b :
  same_session a b → display_page float_repr a = display_page float_repr b.
Proof.
  destruct a, b. unfold same_session. simpl.
  intros (-> & -> & -> & -> & -> & ->). unfold display_page, page_slice. simpl.
  destruct (py_slice _ _ _); reflexivity.
Qed.

(** X2. Turning the page and coming back re-renders the page as it was: from
    a rendered page, [n] followed by [p] (and [p] followed by [n]) ends in the
    very object the user left, with the same output as the first rendering
    and the store untouched. *)
Theorem navigate_round_trip (self0 self : Pagination) (evs0 : list event) (ud : U) (i j : string) :
  display_page float_repr self0 = Ok (self, evs0) →
  (lower i = "n" → lower j = "p" → 1 ≤ current_page self →
   ∀ s1 u1 e1 c1,
     command float_repr self ud i = Ok (s1, u1, e1, c1) →
     current_page self < total_pages self →
     command float_repr s1 u1 j = Ok (self, ud, evs0, Continue))
  ∧ (lower i = "p" → lower j = "n" → current_page self ≤ total_pages self →
     ∀ s1 u1 e1 c1,
       command float_repr self ud i = Ok (s1, u1, e1, c1) →
       1 < current_page self →
       command float_repr s1 u1 j = Ok (self, ud, evs0, Continue)).
Proof.
  intros H0. pose proof (display_page_inv _ _ _ _ H0) as (Hf0 & _).
  destruct Hf0 as (Hps & Hd & Ht & Hc & Hm & He).
  split.
  - intros Hi Hj Hcur s1 u1 e1 c1 Hcmd Hlt.
    rewrite command_next in Hcmd by done.
    destruct (Z.ltb_spec (current_page self) (total_pages self)); [|lia].
    apply bind_Ok_inv in Hcmd as ([s e] & H1 & [= <- <- <- <-]).
    pose proof (display_page_inv _ _ _ _ H1) as ((Hps1&Hd1&Ht1&Hc1&Hm1&He1) & _).
    cbn in Hps1, Hd1, Ht1, Hc1, Hm1, He1.
    rewrite command_previous by done.
    destruct (Z.ltb_spec 1 (current_page s)); [|lia].
    rewrite (display_page_same_session _ self0), H0; [done|].
    unfold same_session. cbn. rewrite <- Hps1, <- Hd1, <- Ht1, <- Hc1, <- Hm1, <- He1.
    repeat split; try done. lia.
  - intros Hi Hj Hcur s1 u1 e1 c1 Hcmd Hlt.
    rewrite command_previous in Hcmd by done.
    destruct (Z.ltb_spec 1 (current_page self)); [|lia].
    apply bind_Ok_inv in Hcmd as ([s e] & H1 & [= <- <- <- <-]).
    pose proof (display_page_inv _ _ _ _ H1) as ((Hps1&Hd1&Ht1&Hc1&Hm1&He1) & _).
    cbn in Hps1, Hd1, Ht1, Hc1, Hm1, He1.
    rewrite command_next by done.
    destruct (Z.ltb_spec (current_page s) (total_pages s)); [|lia].
    rewrite (display_page_same_session _ self0), H0; [done|].
    unfold same_session. cbn. rewrite <- Hps1, <- Hd1, <- Ht1, <- Hc1, <- Hm1, <- He1.
    repeat split; try done. lia.
Qed.

(** X3. The options line offers what works. In any state a session reaches,
    the prompt offers [n] exactly when [current_page < total_pages], in which
    case [n] renders the next page, and otherwise [n] only reports that there
    is no next page; likewise for [p] and [current_page > 1]. *)
Theorem prompt_offers_what_works (size : Z) (ud : U) (rs : list record) (md : string) (inputs : list string) (self : Pagination) (ud' : U) (evs : list event) (c : control) :
  1 ≤ size →
  paginate float_repr size ud rs md inputs = Ok (self, ud', evs, c) →
  ∀ prompt, input_text self ud' = Ok prompt →
  ∃ nav option,
    PrintOptions nav option ∈ prompt
    ∧ (offers_next nav = true ↔ current_page self < total_pages self)
    ∧ (offers_previous nav = true ↔ 1 < current_page self)
    ∧ (offers_next nav = false →
       ∀ i, lower i = "n" →
         command float_repr self ud' i = Ok (self, ud', [Print NoNextPage], Continue))
    ∧ (offers_previous nav = false →
       ∀ i, lower i = "p" →
         command float_repr self ud' i
         = Ok (self, ud', [Print NoPreviousPage], Continue)).
Proof.
  intros Hs H prompt Hp. unfold paginate in H.
  apply bind_Ok_inv in H as ([s0 e0] & H0 & H).
  apply bind_Ok_inv in H as ([[[s1 u1] e1] c1] & H1 & [= <- <- <- <-]).
  apply paginate_start_inv in H0 as (_ & _ & _ & Hc & _); [|done].
  apply loop_advances in H1 as (_ & _ & Ht1 & _ & Hr & _).
  assert (Hrange : 1 ≤ current_page s1 ≤ Z.max 1 (total_pages s1)).
  { rewrite Ht1. apply Hr. lia. }
  unfold input_text in Hp.
  apply bind_Ok_inv in Hp as ([option calls] & _ & [= <-]).
  eexists _, option. split.
  { apply elem_of_app. right. apply elem_of_app. right.
    apply elem_of_cons. left. reflexivity. }
  assert (Hn : (if total_pages s1 <=? 1 then NavNone
                else if current_page s1 =? 1 then NavNext
                else if current_page s1 =? total_pages s1 then NavPrevious
                else NavBoth) = NavNext
               ∨ (if total_pages s1 <=? 1 then NavNone
                  else if current_page s1 =? 1 then NavNext
                  else if current_page s1 =? total_pages s1 then NavPrevious
                  else NavBoth) = NavBoth
               ↔ current_page s1 < total_pages s1).
  { destruct (Z.leb_spec (total_pages s1) 1), (Z.eqb_spec (current_page s1) 1),
      (Z.eqb_spec (current_page s1) (total_pages s1));
      split; try lia; try (intros [|]; discriminate); auto. }
  assert (Hpv : (if total_pages s1 <=? 1 then NavNone
                 else if current_page s1 =? 1 then NavNext
                 else if current_page s1 =? total_pages s1 then NavPrevious
                 else NavBoth) = NavPrevious
                ∨ (if total_pages s1 <=? 1 then NavNone
                   else if current_page s1 =? 1 then NavNext
                   else if current_page s1 =? total_pages s1 then NavPrevious
                   else NavBoth) = NavBoth
                ↔ 1 < current_page s1).
  { destruct (Z.leb_spec (total_pages s1) 1), (Z.eqb_spec (current_page s1) 1),
      (Z.eqb_spec (current_page s1) (total_pages s1));
      split; try lia; try (intros [|]; discriminate); auto. }
  set (nav := if total_pages s1 <=? 1 then _ else _) in *. clearbody nav.
  assert (Hon : offers_next nav = true ↔ current_page s1 < total_pages s1).
  { rewrite <- Hn. destruct nav; simpl; split; try done;
      try (intros [|]; done); auto. }
  assert (Hop : offers_previous nav = true ↔ 1 < current_page s1).
  { rewrite <- Hpv. destruct nav; simpl; split; try done;
      try (intros [|]; done); auto. }
  split; [exact Hon|]. split; [exact Hop|]. split.
  - intros Hf i Hi. rewrite command_next by done.
    destruct (Z.ltb_spec (current_page s1) (total_pages s1)); [|done].
    apply Hon in H. congruence.
  - intros Hf i Hi. rewrite command_previous by done.
    destruct (Z.ltb_spec 1 (current_page s1)); [|done].
    apply Hop in H. congruence.
Qed.

Lemma command_eaten_prefix self (ud : U) user_input self' ud' evs c :
  command float_repr self ud user_input = Ok (self', ud', evs, c) →
  eaten_pages self `prefix_of` eaten_pages self'.
Proof.
  intros H. apply command_inv in H
    as [(_&_&_&H) | [(_&_&_&H) | [(_&_&->&_) | [-> _]]]].
  - apply display_page_inv in H as ((_&_&_&_&_&He) & _). cbn in He. by rewrite He.
  - apply display_page_inv in H as ((_&_&_&_&_&He) & _). cbn in He. by rewrite He.
  - cbn. by apply prefix_app_r.
  - done.
Qed.

Lemma loop_eaten_prefix inputs : ∀ self (ud : U) self' ud' evs c,
  loop float_repr self ud inputs = Ok (self', ud', evs, c) →
  eaten_pages self `prefix_of` eaten_pages self'.
Proof.
  induction inputs as [|i rest IH]; intros self ud self' ud' evs c H; simpl in H.
  - by apply bind_Ok_inv in H as (e0 & _ & [= <- <- <- <-]).
  - apply bind_Ok_inv in H as ([[[s1 u1] e1] c1] & H1 & H).
    unfold iteration in H1. apply bind_Ok_inv in H1 as (e0 & _ & H1).
    apply bind_Ok_inv in H1 as ([[[s2 u2] e2] c2] & H2 & [= <- <- <- <-]).
    apply command_eaten_prefix in H2. destruct c2.
    + apply bind_Ok_inv in H as ([[[s3 u3] e3] c3] & H3 & [= <- <- <- <-]).
      etransitivity; [exact H2 | by eapply IH].
    + by injection H as <- <- <- <-.
Qed.

(** X4. [eaten_pages] only grows. Whatever the user types afterwards, a page
    whose calories were added stays in [eaten_pages] for the rest of the
    session: back on that page the prompt shows neither the advice nor the
    [e] option, and [e] changes neither the object nor the store. *)
Theorem eaten_pages_persist (self : Pagination) (ud : U) (inputs : list string) (self' : Pagination) (ud' : U) (evs : list event) (c : control) (p : Z) :
  loop float_repr self ud inputs = Ok (self', ud', evs, c) →
  p ∈ eaten_pages self →
  p ∈ eaten_pages self'
  ∧ (current_page self' = p →
     eat_offered self' = false
     ∧ (∀ prompt, input_text self' ud' = Ok prompt →
          (PrintEatOption ∉ prompt) ∧ ∀ a, PrintAdvice a ∉ prompt)
     ∧ ∀ i, lower i = "e" →
         ∃ m, command float_repr self' ud' i = Ok (self', ud', [Print m], Continue)).
Proof.
  intros H Hp. apply loop_eaten_prefix in H as [k Hk].
  assert (Hin : p ∈ eaten_pages self').
  { rewrite Hk. apply elem_of_app. by left. }
  split; [exact Hin|]. intros Hc.
  assert (Hoff : eat_offered self' = false).
  { unfold eat_offered. rewrite Hc, (bool_decide_eq_true_2 _ Hin).
    apply andb_false_r. }
  split; [exact Hoff|]. split.
  - intros prompt Hpr. unfold input_text in Hpr. rewrite Hoff in Hpr.
    apply bind_Ok_inv in Hpr as ([option calls] & Hs & [= <-]).
    unfold save_unsave in Hs.
    destruct (_ || _).
    + injection Hs as <- <-. cbn. split; [|intros a];
        intros Hx%list_elem_of_singleton; discriminate.
    + apply bind_Ok_inv in Hs as (name & _ & Hs).
      apply bind_Ok_inv in Hs as (saved & _ & [= <- <-]). cbn.
      split; [|intros a];
        (intros [Hx|Hx%list_elem_of_singleton]%elem_of_cons; discriminate).
  - intros i Hi. unfold command. rewrite Hi. cbn.
    destruct (String.eqb (mode self') "nutrition" && truthy (display_data self')).
    + rewrite Hc, (bool_decide_eq_true_2 _ Hin). cbn. by eexists.
    + by eexists.
Qed.

End Navigation.

(** ** Which commands reach the store *)

Section StoreCalls.

Context (float_repr : float → string) {U : Type} `{!UserDataOps U}.

Lemma command_calls self (ud : U) user_input self' ud' evs c :
  command float_repr self ud user_input = Ok (self', ud', evs, c) →
  (mode self ≠ "nutrition" → List.filter is_ledger_call evs = [])
  ∧ (mode self ≠ "exercise" → List.filter is_save_call evs = [])
  ∧ (List.filter is_write evs = [] → ud' = ud).
Proof.
  unfold command. cbv zeta.
  destruct (String.eqb (lower user_input) "n").
  { destruct (current_page self <? total_pages self).
    - intros H. apply bind_Ok_inv in H as ([s1 e1] & H1 & [= <- <- <- <-]).
      apply display_page_events in H1.
      split; [by intros; apply ledger_call_is_write|].
      split; [by intros; apply save_call_is_write | done].
    - by intros [= <- <- <- <-]. }
  destruct (String.eqb (lower user_input) "p").
  { destruct (1 <? current_page self).
    - intros H. apply bind_Ok_inv in H as ([s1 e1] & H1 & [= <- <- <- <-]).
      apply display_page_events in H1.
      split; [by intros; apply ledger_call_is_write|].
      split; [by intros; apply save_call_is_write | done].
    - by intros [= <- <- <- <-]. }
  destruct (String.eqb (lower user_input) "s" && String.eqb (mode self) "exercise"
            && truthy (display_data self)) eqn:Hs.
  { apply andb_true_iff in Hs as [[_ Hm%String.eqb_eq]%andb_true_iff _].
    destruct (display_data self) as [d|]; [|discriminate].
    intros H. apply bind_Ok_inv in H as (name & _ & H).
    apply bind_Ok_inv in H as ([] & _ & H).
    - injection H as <- <- <- <-. by repeat split.
    - apply bind_Ok_inv in H as (ud1 & _ & [= <- <- <- <-]). by repeat split. }
  destruct (String.eqb (lower user_input) "u" && String.eqb (mode self) "exercise"
            && truthy (display_data self)) eqn:Hu.
  { apply andb_true_iff in Hu as [[_ Hm%String.eqb_eq]%andb_true_iff _].
    destruct (display_data self) as [d|]; [|discriminate].
    intros H. apply bind_Ok_inv in H as (name & _ & H).
    apply bind_Ok_inv in H as ([] & _ & H); cbn [negb] in H.
    - apply bind_Ok_inv in H as (ud1 & _ & [= <- <- <- <-]). by repeat split.
    - injection H as <- <- <- <-. by repeat split. }
  destruct (String.eqb (lower user_input) "e" && String.eqb (mode self) "nutrition"
            && truthy (display_data self)) eqn:He.
  { apply andb_true_iff in He as [[_ Hm%String.eqb_eq]%andb_true_iff _].
    destruct (bool_decide (current_page self ∈ eaten_pages self)); cbn [negb].
    - by intros [= <- <- <- <-].
    - intros H. apply bind_Ok_inv in H as ([ud1 check] & _ & H).
      apply bind_Ok_inv in H as (dlg & _ & [= <- <- <- <-]).
      by repeat split. }
  destruct (String.eqb (lower user_input) "m"); by intros [= <- <- <- <-].
Qed.

Lemma loop_calls inputs : ∀ self (ud : U) self' ud' evs c,
  loop float_repr self ud inputs = Ok (self', ud', evs, c) →
  (mode self ≠ "nutrition" → List.filter is_ledger_call evs = [])
  ∧ (mode self ≠ "exercise" → List.filter is_save_call evs = [])
  ∧ (List.filter is_write evs = [] → ud' = ud).
Proof.
  induction inputs as [|i rest IH]; intros self ud self' ud' evs c H; simpl in H.
  - apply bind_Ok_inv in H as (e0 & H0 & [= <- <- <- <-]).
    apply input_text_events in H0.
    split; [by intros; apply ledger_call_is_write|].
    split; [by intros; apply save_call_is_write | done].
  - apply bind_Ok_inv in H as ([[[s1 u1] e1] c1] & H1 & H).
    unfold iteration in H1. apply bind_Ok_inv in H1 as (e0 & H0 & H1).
    apply bind_Ok_inv in H1 as ([[[s2 u2] e2] c2] & H2 & [= <- <- <- <-]).
    apply input_text_events in H0.
    pose proof (command_advances _ _ _ _ _ _ _ _ H2) as (_ & _ & _ & Hm & _).
    apply command_calls in H2 as (Hl & Hsv & Hw).
    assert (Hstep :
      (mode self ≠ "nutrition" → List.filter is_ledger_call (e0 ++ e2) = [])
      ∧ (mode self ≠ "exercise" → List.filter is_save_call (e0 ++ e2) = [])
      ∧ (List.filter is_write (e0 ++ e2) = [] → u2 = ud)).
    { rewrite !List.filter_app, H0, (ledger_call_is_write _ H0),
        (save_call_is_write _ H0). done. }
    destruct Hstep as (Hl1 & Hs1 & Hw1). destruct c2.
    + apply bind_Ok_inv in H as ([[[s3 u3] e3] c3] & H3 & [= <- <- <- <-]).
      apply IH in H3 as (Hl3 & Hs3 & Hw3). rewrite Hm in Hl3, Hs3.
      rewrite !(List.filter_app _ (e0 ++ e2) e3). split; [|split].
      * intros Hne. by rewrite Hl1, Hl3.
      * intros Hne. by rewrite Hs1, Hs3.
      * intros [Ha Hb]%app_eq_nil. rewrite (Hw3 Hb). by apply Hw1.
    + by injection H as <- <- <- <-.
Qed.

(** X7. The three store-changing commands are kept apart by mode. Over a whole
    session, whatever is typed: outside nutrition mode the calorie ledger is
    never called; outside exercise mode the table of saved exercises is never
    written; and a session that made no writing call returns the store it was
    given. *)
Theorem store_calls_by_mode (size : Z) (ud : U) (rs : list record) (md : string) (inputs : list string) (self : Pagination) (ud' : U) (evs : list event) (c : control) :
  paginate float_repr size ud rs md inputs = Ok (self, ud', evs, c) →
  (md ≠ "nutrition" → List.filter is_ledger_call evs = [])
  ∧ (md ≠ "exercise" → List.filter is_save_call evs = [])
  ∧ (List.filter is_write evs = [] → ud' = ud).
Proof.
  intros H. unfold paginate in H.
  apply bind_Ok_inv in H as ([s0 e0] & H0 & H).
  apply bind_Ok_inv in H as ([[[s1 u1] e1] c1] & H1 & [= <- <- <- <-]).
  unfold paginate_start in H0. apply bind_Ok_inv in H0 as (total & _ & H0).
  apply bind_Ok_inv in H0 as ([s e] & H0 & [= <- <-]).
  pose proof (display_page_events _ _ _ _ H0) as He0.
  apply display_page_inv in H0 as ((_&_&_&_&Hm&_) & _). cbn in Hm.
  apply loop_calls in H1 as (Hl & Hs & Hw). cbn [mode set_eaten_pages] in Hl, Hs.
  rewrite <- Hm in Hl, Hs. rewrite !List.filter_app.
  rewrite He0, (ledger_call_is_write _ He0), (save_call_is_write _ He0). done.
Qed.

End StoreCalls.

(** ** Sessions that return *)

Section Safety.

Context (float_repr : float → string) {U : Type} `{!UserDataOps U}.

Lemma has_fields_items self d ks :
  display_data self = Some d → has_fields ks d = true →
  ∃ vs, display_items self ks = Ok vs.
Proof.
  intros Hd. induction ks as [|k ks IH]; intros Hf; simpl; [by eexists|].
  apply andb_true_iff in Hf as [[v Hv]%bool_decide_eq_true Hks].
  destruct (IH Hks) as [vs Hvs].
  unfold display_item, dict_item. rewrite Hd, Hv, bind_Ok, Hvs. by eexists.
Qed.

Lemma page_slice_subseteq self p : page_slice self p ⊆ data self.
Proof. apply py_slice_subseteq. Qed.

Lemma display_record_exercise self d :
  mode self = "exercise" →
  display_record float_repr self d
  = (evs ← display_exercise (set_display_data self (Some d));
     Ok (set_display_data self (Some d), evs)).
Proof. intros Hm. unfold display_record. cbn [mode set_display_data]. by rewrite Hm. Qed.

Lemma display_records_exercise_ok page : ∀ self,
  mode self = "exercise" →
  (∀ d, d ∈ page → has_fields exercise_fields d = true) →
  ∃ self' evs, display_records float_repr self page = Ok (self', evs).
Proof.
  induction page as [|d rest IH]; intros self Hm Hall; cbn [display_records];
    [by eexists _, _|].
  rewrite display_record_exercise by done.
  destruct (has_fields_items (set_display_data self (Some d)) d exercise_fields)
    as [vs Hvs]; [done | apply Hall, elem_of_cons; by left|].
  unfold display_exercise. rewrite Hvs, !bind_Ok.
  destruct (IH (set_display_data self (Some d))) as (s' & evs & Hr);
    [done | intros d' Hd'; apply Hall, elem_of_cons; by right|].
  rewrite Hr. by eexists _, _.
Qed.

Lemma display_page_exercise_ok self :
  mode self = "exercise" →
  (∀ d, d ∈ data self → has_fields exercise_fields d = true) →
  ∃ self' evs,
    display_page float_repr self = Ok (self', evs) ∧ exercise_ready self'
    ∧ data self' = data self.
Proof.
  intros Hm Hall.
  assert (∃ self' evs, display_page float_repr self = Ok (self', evs))
    as (self' & evs & H).
  { unfold display_page.
    destruct (page_slice self (current_page self)) as [|d rest] eqn:Hp;
      [by eexists _, _|].
    destruct (display_records_exercise_ok (d :: rest) (reset_page self))
      as (s' & e & Hr); [done| |].
    - intros d' Hd'. apply Hall. rewrite <- Hp in Hd'.
      by eapply page_slice_subseteq.
    - unfold reset_page in Hr. rewrite Hr. by eexists _, _. }
  exists self', evs. split; [exact H|].
  apply display_page_inv in H as ((_&Hd&_&_&Hm'&_) & Hdd & _).
  split; [|done].
  unfold exercise_ready. rewrite <- Hm', <- Hd. split; [done|]. split; [done|].
  intros d Hd'. rewrite Hdd in Hd'. apply last_Some in Hd' as [l' Hl'].
  eapply page_slice_subseteq. rewrite Hl'. apply elem_of_app. right.
  by apply list_elem_of_singleton.
Qed.

Lemma exercise_ready_name self d :
  exercise_ready self → display_data self = Some d →
  d ∈ data self ∧ ∃ name, d !! "name" = Some name.
Proof.
  intros (_ & Hall & Hdd) Hd. split; [by apply Hdd|].
  specialize (Hall d (Hdd d Hd)).
  by apply andb_true_iff in Hall as [[v Hv]%bool_decide_eq_true _]; eexists.
Qed.

Lemma input_text_exercise_ok self (ud : U) :
  exercise_ready self → saves_return (data self) →
  ∃ prompt, input_text self ud = Ok prompt.
Proof.
  intros Hr Hst. unfold input_text, save_unsave.
  destruct (_ || _) eqn:Hg; [by eexists|].
  destruct (display_data self) as [d|] eqn:Hd;
    [|by rewrite orb_true_r in Hg].
  destruct (exercise_ready_name _ _ Hr Hd) as [Hin [name Hn]].
  destruct (Hst ud d name Hin Hn) as ([saved Hsv] & _).
  unfold display_item, dict_item. rewrite Hd, Hn, bind_Ok, Hsv. by eexists.
Qed.

Lemma command_exercise_ok self (ud : U) user_input :
  exercise_ready self → saves_return (data self) →
  ∃ self' ud' evs c,
    command float_repr self ud user_input = Ok (self', ud', evs, c)
    ∧ exercise_ready self' ∧ data self' = data self.
Proof.
  intros Hr Hst. pose proof Hr as (Hm & Hall & Hdd). unfold command. cbv zeta.
  destruct (String.eqb (lower user_input) "n").
  { destruct (current_page self <? total_pages self); [|by eexists _, _, _, _].
    destruct (display_page_exercise_ok
                (set_current_page self (current_page self + 1)))
      as (s' & e & Hp & Hr' & Hd'); [done|done|].
    rewrite Hp. by eexists _, _, _, _. }
  destruct (String.eqb (lower user_input) "p").
  { destruct (1 <? current_page self); [|by eexists _, _, _, _].
    destruct (display_page_exercise_ok
                (set_current_page self (current_page self - 1)))
      as (s' & e & Hp & Hr' & Hd'); [done|done|].
    rewrite Hp. by eexists _, _, _, _. }
  destruct (String.eqb (lower user_input) "s" && String.eqb (mode self) "exercise"
            && truthy (display_data self)) eqn:Hs.
  { destruct (display_data self) as [d|] eqn:Hd;
      [|by rewrite andb_false_r in Hs].
    destruct (exercise_ready_name _ _ Hr Hd) as [Hin [name Hn]].
    destruct (Hst ud d name Hin Hn) as ([saved Hsv] & [u1 Hadd] & _).
    unfold dict_item. rewrite Hn, bind_Ok, Hsv, bind_Ok.
    destruct saved; [by eexists _, _, _, _|].
    rewrite Hadd. by eexists _, _, _, _. }
  destruct (String.eqb (lower user_input) "u" && String.eqb (mode self) "exercise"
            && truthy (display_data self)) eqn:Hu.
  { destruct (display_data self) as [d|] eqn:Hd;
      [|by rewrite andb_false_r in Hu].
    destruct (exercise_ready_name _ _ Hr Hd) as [Hin [name Hn]].
    destruct (Hst ud d name Hin Hn) as ([saved Hsv] & _ & [u1 Hdel]).
    unfold dict_item. rewrite Hn, bind_Ok, Hsv, bind_Ok.
    destruct saved; cbn [negb]; [|by eexists _, _, _, _].
    rewrite Hdel. by eexists _, _, _, _. }
  rewrite Hm. change (String.eqb "exercise" "nutrition") with false.
  rewrite andb_false_r. cbn [andb].
  destruct (String.eqb (lower user_input) "m"); by eexists _, _, _, _.
Qed.

Lemma loop_exercise_ok inputs : ∀ self (ud : U),
  exercise_ready self → saves_return (data self) →
  ∃ r, loop float_repr self ud inputs = Ok r.
Proof.
  induction inputs as [|i rest IH]; intros self ud Hr Hst; simpl.
  - destruct (input_text_exercise_ok self ud Hr Hst) as [prompt ->]. by eexists.
  - unfold iteration.
    destruct (input_text_exercise_ok self ud Hr Hst) as [prompt ->].
    destruct (command_exercise_ok self ud i Hr Hst)
      as (s' & u' & e & c & -> & Hr' & Hd').
    rewrite !bind_Ok. destruct c; [|by eexists].
    destruct (IH s' u' Hr') as [[[[s2 u2] e2] c2] ->]; [by rewrite Hd'|].
    by eexists.
Qed.

(** X5. An exercise session over complete records fails only if the store
    does: when every record of the result set holds the six exercise fields,
    the page size is not zero, and [is_saved], [add_save] and [delete_save]
    return on the records of the result set under their names, [paginate] in
    exercise mode raises nothing, for every sequence of input lines. *)
Theorem exercise_session_returns (size : Z) (ud : U) (rs : list record) (inputs : list string) :
  size ≠ 0 →
  (∀ d, d ∈ rs → has_fields exercise_fields d = true) →
  saves_return (U := U) rs →
  ∃ r, paginate float_repr size ud rs "exercise" inputs = Ok r.
Proof.
  intros Hs Hall Hst.
  unfold paginate, paginate_start, count_pages, int_floordiv, int_mod.
  destruct (Z.eqb_spec size 0) as [|_]; [done|]. rewrite !bind_Ok.
  match goal with |- context [display_page float_repr ?s] =>
    destruct (display_page_exercise_ok s) as (s' & e & Hp & Hr & Hd); [done|done|]
  end.
  rewrite Hp, !bind_Ok.
  destruct (loop_exercise_ok inputs (set_eaten_pages s' []) ud)
    as [[[[s2 u2] e2] c2] Hl]; [exact Hr | by cbn; rewrite Hd |].
  rewrite Hl. by eexists.
Qed.

Lemma is_float_field_get d k dflt :
  is_float_field d k = true → ∃ f, dict_get d k dflt = PNum (NFloat f).
Proof.
  unfold is_float_field, dict_get.
  destruct (d !! k) as [[| |[|f]|]|]; try discriminate. by eexists.
Qed.

Lemma num_add_float acc x :
  zero_or_float acc = true → ∃ f, num_add acc (NFloat x) = Ok (NFloat f).
Proof.
  destruct acc as [[| |]|a]; try discriminate; intros _.
  - exists (0 + x)%float. reflexivity.
  - by eexists.
Qed.

Lemma scaled_field_float d k factor :
  is_float_field d k = true →
  ∃ f, py_mul (dict_get d k (pint 0)) factor = Ok (NFloat f).
Proof.
  intros H. destruct (is_float_field_get d k (pint 0) H) as [f ->]. by eexists.
Qed.

Lemma accumulate_nutrition_ok self d :
  well_formed_food d = true →
  zero_or_float (page_calories self) = true →
  zero_or_float (page_fat self) = true →
  zero_or_float (page_protein self) = true →
  zero_or_float (page_sugar self) = true →
  ∃ self',
    accumulate_nutrition float_repr self d = Ok self'
    ∧ zero_or_float (page_calories self') = true
    ∧ zero_or_float (page_fat self') = true
    ∧ zero_or_float (page_protein self') = true
    ∧ zero_or_float (page_sugar self') = true.
Proof.
  unfold well_formed_food.
  intros [[[[[[_ Hname]%andb_true_iff Hss]%andb_true_iff Hc]%andb_true_iff
    Hf]%andb_true_iff Hp]%andb_true_iff Hs]%andb_true_iff Zc Zf Zp Zs.
  unfold accumulate_nutrition.
  assert (∃ f, dict_get d "serving_size_g" (pint 100) = PNum (NFloat f)
               ∧ float_is_zero f = false) as (ss & -> & Hnz).
  { unfold dict_get. destruct (d !! "serving_size_g") as [[| |[|f]|]|];
      try discriminate. exists f. split; [done|]. by apply negb_true_iff. }
  cbn [as_num]. rewrite bind_Ok.
  assert (Hdiv : num_truediv (NInt 100) (NFloat ss) = Ok (100 / ss)%float).
  { unfold num_truediv.
    change (to_float (NInt 100)) with (Ok 100%float).
    cbn [to_float]. rewrite !bind_Ok. by rewrite Hnz. }
  rewrite Hdiv, bind_Ok.
  destruct (scaled_field_float d "calories" (100 / ss)%float Hc) as [c Hc'].
  destruct (scaled_field_float d "fat_total_g" (100 / ss)%float Hf) as [f Hf'].
  destruct (scaled_field_float d "protein_g" (100 / ss)%float Hp) as [p Hp'].
  destruct (scaled_field_float d "sugar_g" (100 / ss)%float Hs) as [s Hs'].
  destruct (num_add_float _ c Zc) as [c' Hc''].
  destruct (num_add_float _ f Zf) as [f' Hf''].
  destruct (num_add_float _ p Zp) as [p' Hp''].
  destruct (num_add_float _ s Zs) as [s' Hs''].
  assert (∃ t, dict_get d "name" PNone = PStr t) as [t ->].
  { unfold dict_get. destruct (d !! "name") as [[| | |t]|]; try discriminate.
    by eexists. }
  rewrite Hc', bind_Ok.
  destruct (num_ge (NFloat ss) 100 && serving_size_check self);
    [|destruct (negb (serving_size_check self));
      destruct (num_lt (NFloat ss) 100 && num_gt (NFloat c) 300)];
    cbn [str_concat]; rewrite ?bind_Ok;
    rewrite Hc'', bind_Ok, Hf', bind_Ok, Hf'', bind_Ok, Hp', bind_Ok, Hp'',
      bind_Ok, Hs', bind_Ok, Hs'', bind_Ok;
    by eexists.
Qed.

Lemma display_record_nutrition self d :
  mode self = "nutrition" →
  display_record float_repr self d
  = (self ← accumulate_nutrition float_repr (set_display_data self (Some d)) d;
     evs ← display_nutrition self;
     Ok (self, evs)).
Proof. intros Hm. unfold display_record. cbn [mode set_display_data]. by rewrite Hm. Qed.

Lemma display_records_nutrition_ok page : ∀ self,
  mode self = "nutrition" →
  (∀ d, d ∈ page → well_formed_food d = true) →
  zero_or_float (page_calories self) = true →
  zero_or_float (page_fat self) = true →
  zero_or_float (page_protein self) = true →
  zero_or_float (page_sugar self) = true →
  ∃ self' evs, display_records float_repr self page = Ok (self', evs).
Proof.
  induction page as [|d rest IH]; intros self Hm Hall Zc Zf Zp Zs;
    cbn [display_records]; [by eexists _, _|].
  rewrite display_record_nutrition by done.
  assert (Hd : well_formed_food d = true) by (apply Hall, elem_of_cons; by left).
  destruct (accumulate_nutrition_ok (set_display_data self (Some d)) d Hd)
    as (s1 & Hacc & Zc1 & Zf1 & Zp1 & Zs1); [done..|].
  rewrite Hacc, bind_Ok.
  pose proof (accumulate_nutrition_frame _ _ _ _ Hacc) as [(_&_&_&_&Hm1&_) Hdd].
  cbn in Hm1, Hdd.
  destruct (has_fields_items s1 d nutrition_fields) as [vs Hvs]; [done| |].
  { unfold well_formed_food in Hd.
    do 6 (apply andb_true_iff in Hd as [Hd _]). exact Hd. }
  unfold display_nutrition. rewrite Hvs, !bind_Ok.
  destruct (IH s1) as (s' & evs & Hr); try done.
  { by rewrite <- Hm1. }
  { intros d' Hd'. apply Hall, elem_of_cons. by right. }
  rewrite Hr. by eexists _, _.
Qed.

(** X6. What C9's failures leave: a nutrition session over records as the
    provider sends them (the twelve fields, a string name, float values, a
    serving size other than zero) can be entered, and every page of it can be
    rendered, without an exception. *)
Theorem nutrition_pages_render (size : Z) (rs : list record) (self : Pagination) (p : Z) :
  (∀ d, d ∈ rs → well_formed_food d = true) →
  (size ≠ 0 → ∃ r, paginate_start float_repr size rs "nutrition" = Ok r)
  ∧ (mode self = "nutrition" → data self = rs →
     ∃ self' evs,
       display_page float_repr (set_current_page self p) = Ok (self', evs)).
Proof.
  intros Hall.
  assert (Hpage : ∀ s, mode s = "nutrition" → data s = rs →
            ∃ s' evs, display_page float_repr s = Ok (s', evs)).
  { intros s Hm Hd. unfold display_page.
    destruct (page_slice s (current_page s)) as [|d rest] eqn:Hp;
      [by eexists _, _|].
    destruct (display_records_nutrition_ok (d :: rest) (reset_page s))
      as (s' & e & Hr); try done.
    - intros d' Hd'. apply Hall. rewrite <- Hd, <- Hp in *.
      by eapply page_slice_subseteq.
    - unfold reset_page in Hr. rewrite Hr. by eexists _, _. }
  split.
  - intros Hs. unfold paginate_start, count_pages, int_floordiv, int_mod.
    destruct (Z.eqb_spec size 0) as [|_]; [done|]. rewrite !bind_Ok.
    match goal with |- context [display_page float_repr ?s] =>
      destruct (Hpage s) as (s' & e & ->); [done|done|]
    end.
    by eexists.
  - intros Hm Hd. by apply Hpage.
Qed.

End Safety.

(** ** The further properties on sample sessions *)

Lemma pages_partition_witness :
  concat (page_slice (started 3 seven_exercises "exercise").1
            <$> page_numbers (total_pages (started 3 seven_exercises "exercise").1))
  = seven_exercises.
Proof.
  assert (Hs : 1 ≤ 3) by lia.
  assert (Hp : paginate_start sample_repr 3 seven_exercises "exercise"
               = Ok ((started 3 seven_exercises "exercise").1,
                     (started 3 seven_exercises "exercise").2))
    by (vm_compute; reflexivity).
  destruct (pages_partition sample_repr 3 seven_exercises "exercise" _ _ Hs Hp)
    as [H _].
  exact H.
Defined.

Lemma navigate_round_trip_witness :
  command sample_repr
    (returned (sample_session 3 seven_exercises "exercise", empty_store, [], Continue)
       (command sample_repr (started 3 seven_exercises "exercise").1
          empty_store "n")).1.1.1
    empty_store "P"
  = Ok ((started 3 seven_exercises "exercise").1, empty_store,
        (started 3 seven_exercises "exercise").2, Continue).
Proof.
  set (r := returned
              (sample_session 3 seven_exercises "exercise", empty_store, [], Continue)
              (command sample_repr (started 3 seven_exercises "exercise").1
                 empty_store "n")).
  assert (Hp : display_page sample_repr
                 (sample_session 3 seven_exercises "exercise")
               = Ok ((started 3 seven_exercises "exercise").1,
                     (started 3 seven_exercises "exercise").2))
    by (vm_compute; reflexivity).
  assert (Hc : command sample_repr (started 3 seven_exercises "exercise").1
                 empty_store "n" = Ok (r.1.1.1, r.1.1.2, r.1.2, r.2))
    by (vm_compute; reflexivity).
  assert (Hu : r.1.1.2 = empty_store) by (vm_compute; reflexivity).
  destruct (navigate_round_trip sample_repr
              (sample_session 3 seven_exercises "exercise")
              (started 3 seven_exercises "exercise").1
              (started 3 seven_exercises "exercise").2 empty_store "n" "P" Hp)
    as [Hnp _].
  rewrite <- Hu at 1.
  apply (Hnp eq_refl eq_refl ltac:(vm_compute; discriminate) _ _ _ _ Hc).
  vm_compute. reflexivity.
Defined.

Lemma prompt_offers_what_works_witness :
  ∃ nav option,
    PrintOptions nav option
    ∈ returned [] (input_text
                   (run 3 seven_exercises "exercise" ["n"; "n"]).1.1.1
                   (run 3 seven_exercises "exercise" ["n"; "n"]).1.1.2)
    ∧ offers_next nav = false ∧ offers_previous nav = true.
Proof.
  set (r := run 3 seven_exercises "exercise" ["n"; "n"]).
  assert (Hs : 1 ≤ 3) by lia.
  assert (Hp : paginate sample_repr 3 empty_store seven_exercises "exercise"
                 ["n"; "n"] = Ok (r.1.1.1, r.1.1.2, r.1.2, r.2))
    by (vm_compute; reflexivity).
  assert (Hi : input_text r.1.1.1 r.1.1.2
               = Ok (returned [] (input_text r.1.1.1 r.1.1.2)))
    by (vm_compute; reflexivity).
  destruct (prompt_offers_what_works sample_repr 3 empty_store seven_exercises
              "exercise" ["n"; "n"] _ _ _ _ Hs Hp _ Hi)
    as (nav & option & Hin & Hn & Hpv & _).
  exists nav, option. split; [exact Hin|].
  assert (Hc : current_page r.1.1.1 = 3) by (vm_compute; reflexivity).
  assert (Ht : total_pages r.1.1.1 = 3) by (vm_compute; reflexivity).
  rewrite Hc, Ht in Hn. rewrite Hc in Hpv. split.
  - destruct (offers_next nav); [|reflexivity]. destruct Hn as [Hn _].
    specialize (Hn eq_refl). lia.
  - apply Hpv. lia.
Defined.

Lemma eaten_pages_persist_witness :
  1 ∈ eaten_pages (run 2 three_foods "nutrition" ["e"; "n"; "p"]).1.1.1
  ∧ eat_offered (run 2 three_foods "nutrition" ["e"; "n"; "p"]).1.1.1 = false.
Proof.
  set (r0 := run 2 three_foods "nutrition" ["e"]).
  set (r := returned r0 (loop sample_repr r0.1.1.1 r0.1.1.2 ["n"; "p"])).
  assert (Hr : (run 2 three_foods "nutrition" ["e"; "n"; "p"]).1.1.1 = r.1.1.1)
    by (vm_compute; reflexivity).
  rewrite Hr.
  assert (Hl : loop sample_repr r0.1.1.1 r0.1.1.2 ["n"; "p"]
               = Ok (r.1.1.1, r.1.1.2, r.1.2, r.2))
    by (vm_compute; reflexivity).
  assert (Hin : 1 ∈ eaten_pages r0.1.1.1).
  { apply (bool_decide_unpack _). vm_compute. exact I. }
  destruct (eaten_pages_persist sample_repr _ _ _ _ _ _ _ 1 Hl Hin)
    as (Hin' & Hcur).
  split; [exact Hin'|].
  assert (Hc : current_page r.1.1.1 = 1) by (vm_compute; reflexivity).
  destruct (Hcur Hc) as [Hoff _]. exact Hoff.
Defined.

Lemma store_calls_by_mode_witness :
  List.filter is_ledger_call
    (run 3 seven_exercises "exercise" ["s"; "e"; "n"]).1.2 = [].
Proof.
  set (r := run 3 seven_exercises "exercise" ["s"; "e"; "n"]).
  assert (Hp : paginate sample_repr 3 empty_store seven_exercises "exercise"
                 ["s"; "e"; "n"] = Ok (r.1.1.1, r.1.1.2, r.1.2, r.2))
    by (vm_compute; reflexivity).
  destruct (store_calls_by_mode sample_repr 3 empty_store seven_exercises
              "exercise" ["s"; "e"; "n"] _ _ _ _ Hp) as (Hl & _).
  apply Hl. discriminate.
Defined.

Lemma exercise_session_returns_witness :
  ∃ r, paginate sample_repr 3 empty_store seven_exercises "exercise"
         ["n"; "s"; "x"; "u"; "p"; "e"; "m"] = Ok r.
Proof.
  apply (exercise_session_returns sample_repr 3 empty_store seven_exercises);
    [lia| |].
  - intros d Hd. unfold seven_exercises in Hd.
    repeat (apply elem_of_cons in Hd as [->|Hd]; [vm_compute; reflexivity|]).
    apply elem_of_nil in Hd. destruct Hd.
  - intros u d name Hd Hn. unfold seven_exercises in Hd.
    repeat (apply elem_of_cons in Hd as [->|Hd];
      [injection Hn as <-; split; [|split]; eexists; reflexivity|]).
    apply elem_of_nil in Hd. destruct Hd.
Defined.

(** The first page of a nutrition session: the calories are the sum of the
    scaled calories of its records. *)
Lemma page_totals_scaled_sums_witness :
  ∃ self evs,
    display_page sample_repr (sample_session 3 three_foods "nutrition")
    = Ok (self, evs)
    ∧ sum_normalized (NInt 0) three_foods "calories" = Ok (page_calories self)
    ∧ page_calories self = NFloat 1450.
Proof.
  set (r := returned (sample_session 3 three_foods "nutrition", [])
              (display_page sample_repr
                 (sample_session 3 three_foods "nutrition"))).
  assert (Hp : display_page sample_repr
                 (sample_session 3 three_foods "nutrition") = Ok (r.1, r.2))
    by (vm_compute; reflexivity).
  exists r.1, r.2. split; [exact Hp|].
  destruct (page_totals_scaled_sums sample_repr
              (sample_session 3 three_foods "nutrition") r.1 r.2 eq_refl Hp)
    as (Hc & _).
  split; [exact Hc|]. vm_compute. reflexivity.
Defined.

Lemma nutrition_pages_render_witness :
  (∃ r, paginate_start sample_repr 1 two_float_foods "nutrition" = Ok r)
  ∧ ∃ self evs,
      display_page sample_repr
        (set_current_page (sample_session 1 two_float_foods "nutrition") 2)
      = Ok (self, evs).
Proof.
  assert (Hall : ∀ d, d ∈ two_float_foods → well_formed_food d = true).
  { intros d Hd. unfold two_float_foods in Hd.
    repeat (apply elem_of_cons in Hd as [->|Hd]; [vm_compute; reflexivity|]).
    apply elem_of_nil in Hd. destruct Hd. }
  destruct (nutrition_pages_render sample_repr 1 two_float_foods
              (sample_session 1 two_float_foods "nutrition") 2 Hall) as [H1 H2].
  split; [apply H1; lia | apply H2; reflexivity].
Defined.
